(** * bluesky_kafka.kafka: Publisher and RemoteDispatcher

    A shallow embedding of [src/bluesky_kafka/kafka.py].  The two classes
    are glue around three collaborators that live outside the module: the
    Kafka client ([confluent_kafka.Producer] and [Consumer]), the codec
    (a pluggable function, [pickle] by default) and [copy.deepcopy].  The
    collaborators are modelled as small state machines driven by what the
    broker answers; the methods of the two classes are transcribed
    statement by statement into a state-and-exception monad. *)

From stdpp Require Import base option list gmap strings pretty.
From Stdlib Require Import ZArith Strings.Byte.

Set Warnings "-register-all".

Local Open Scope string_scope.
Local Open Scope list_scope.

(** ** Python exceptions *)

Module Py.

(** The exception classes that the module or its collaborators raise.
    [UserError] stands for whatever a pluggable function (codec,
    subscriber) raises on its own, e.g. [pickle.UnpicklingError]. *)
Inductive exn : Type :=
| BufferError (msg : string)
| AttributeError (cls attr : string)
| RuntimeError (msg : string)
| TypeError (msg : string)
| ValueError (msg : string)
| KeyError (key : string)
| RecursionError
| KeyboardInterrupt
| KafkaException (msg : string)
| UserError (msg : string).

(** [except BufferError]: the class test of the handler.  None of the
    other classes above derives from [BufferError]. *)
Definition is_BufferError (e : exn) : bool :=
  match e with
  | BufferError _ => true
  | _ => false
  end.

(** What a call of a function that does not touch the world does: it
    returns or it raises. *)
Inductive result (A : Type) : Type :=
| Returns (a : A)
| Raises (e : exn).

Arguments Returns {A} a.
Arguments Raises {A} e.

(** What a statement does: it completes with a value, raises, or is still
    blocked in a [poll] when the observed answers of the broker end. *)
Inductive outcome (A : Type) : Type :=
| Ok (a : A)
| Raise (e : exn)
| Pending.

Arguments Ok {A} a.
Arguments Raise {A} e.
Arguments Pending {A}.

(** Statements over a world [W]. *)
Definition M (W A : Type) : Type := W -> outcome A * W.

Definition ret {W A} (a : A) : M W A := fun w => (Ok a, w).

Definition raise {W A} (e : exn) : M W A := fun w => (Raise e, w).

Definition pending {W A} : M W A := fun w => (Pending, w).

Definition bind {W A B} (c : M W A) (k : A -> M W B) : M W B :=
  fun w =>
    match c w with
    | (Ok a, w') => k a w'
    | (Raise e, w') => (Raise e, w')
    | (Pending, w') => (Pending, w')
    end.

(** [try: body  except <class>: handler].  The handler runs in the world
    the body left behind. *)
Definition try_except {W A} (body : M W A) (catches : exn -> bool)
    (handler : exn -> M W A) : M W A :=
  fun w =>
    match body w with
    | (Raise e, w') => if catches e then handler e w' else (Raise e, w')
    | r => r
    end.

Definition get {W} : M W W := fun w => (Ok w, w).

Definition modify {W} (f : W -> W) : M W unit := fun w => (Ok tt, f w).

(** A call that does not touch the world, as a statement. *)
Definition lift {W A} (r : result A) : M W A :=
  fun w =>
    match r with
    | Returns a => (Ok a, w)
    | Raises e => (Raise e, w)
    end.

End Py.

Import Py.

Declare Scope py_scope.
Delimit Scope py_scope with py.
Notation "x <- c ;; k" := (bind c (fun x => k))
  (at level 100, c at next level, right associativity) : py_scope.
Notation "c ;; k" := (bind c (fun _ => k))
  (at level 100, right associativity) : py_scope.
Local Open Scope py_scope.

(** ** Python values *)

Definition bytes : Type := list byte.

#[global] Instance byte_eq_dec : EqDecision byte := Byte.byte_eq_dec.

(** Values as a codec or a subscriber sees them: a finite tree. *)
Inductive pyobj : Type :=
| PyNone
| PyInt (z : Z)
| PyStr (s : string)
| PyBytes (b : bytes)
| PyTuple (xs : list pyobj)
| PyList (xs : list pyobj)
| PyDict (items : list (string * pyobj)).

(** Values as the interpreter holds them: atoms are immutable, containers
    are references into the heap, so two names can alias one object. *)
Definition loc : Type := positive.

Inductive pyval : Type :=
| VNone
| VInt (z : Z)
| VStr (s : string)
| VBytes (b : bytes)
| VRef (l : loc).

Inductive object : Type :=
| ODict (items : list (string * pyval))
| OList (items : list pyval).

Abbreviation heap := (gmap loc object).

(** [repr(v)] for a tree (without the escapes of string literals). *)
Fixpoint py_repr (v : pyobj) : string :=
  match v with
  | PyNone => "None"
  | PyInt z => pretty z
  | PyStr s => "'" +:+ s +:+ "'"
  | PyBytes b => "b'" +:+ String.string_of_list_byte b +:+ "'"
  | PyTuple [x] => "(" +:+ py_repr x +:+ ",)"
  | PyTuple xs => "(" +:+ String.concat ", " (map py_repr xs) +:+ ")"
  | PyList xs => "[" +:+ String.concat ", " (map py_repr xs) +:+ "]"
  | PyDict items =>
      "{" +:+ String.concat ", "
               (map (fun kv => match kv with
                               | (k, x) => "'" +:+ k +:+ "': " +:+ py_repr x
                               end) items) +:+ "}"
  end.

(** [hash(v)] is defined: lists and dicts cannot be hashed, a tuple can
    when its items can. *)
Fixpoint hashable (v : pyobj) : bool :=
  match v with
  | PyList _ | PyDict _ => false
  | PyTuple xs => forallb hashable xs
  | _ => true
  end.

(** [type(v).__name__]. *)
Definition type_name (v : pyobj) : string :=
  match v with
  | PyNone => "NoneType"
  | PyInt _ => "int"
  | PyStr _ => "str"
  | PyBytes _ => "bytes"
  | PyTuple _ => "tuple"
  | PyList _ => "list"
  | PyDict _ => "dict"
  end.

(** [str(v)], as [format] and the f-string of the receive loop print
    it. *)
Definition py_str (v : pyobj) : string :=
  match v with
  | PyStr s => s
  | _ => py_repr v
  end.

(** The tree a value denotes in a heap.  [None] when the containers are
    nested more than [n] deep (so also on a cycle) or a reference
    dangles. *)
Fixpoint snapshot (n : nat) (h : heap) (v : pyval) : option pyobj :=
  match v with
  | VNone => Some PyNone
  | VInt z => Some (PyInt z)
  | VStr s => Some (PyStr s)
  | VBytes b => Some (PyBytes b)
  | VRef l =>
      match n with
      | O => None
      | S n' =>
          match h !! l with
          | Some (ODict items) =>
              xs ← mapM (snapshot n' h) items.*2;
              Some (PyDict (zip items.*1 xs))
          | Some (OList items) =>
              xs ← mapM (snapshot n' h) items;
              Some (PyList xs)
          | None => None
          end
      end
  end.

(** Copy the items of a container one after the other, each copy seeing
    the heap the previous one left. *)
Fixpoint copy_items (copy : pyval -> heap -> option (pyval * heap))
    (xs : list pyval) (h : heap) : option (list pyval * heap) :=
  match xs with
  | [] => Some ([], h)
  | x :: xs' =>
      match copy x h with
      | Some (x', h1) =>
          match copy_items copy xs' h1 with
          | Some (xs'', h2) => Some (x' :: xs'', h2)
          | None => None
          end
      | None => None
      end
  end.

(** A write by the program: bind a freshly built object to a new
    location. *)
Definition alloc (o : object) (h : heap) : pyval * heap :=
  let l := fresh (dom h) in (VRef l, <[l := o]> h).

(** [copy.deepcopy] on documents that are trees of dicts and lists with
    string keys, at most [n] containers deep.  Atoms are returned as they
    are; a container is rebuilt at a new location from the copies of its
    items, made in order.  Python keeps a memo so that a shared or cyclic
    item is copied once; here a shared item is copied at each occurrence,
    which [snapshot] cannot tell apart, and a cycle runs into the depth
    limit. *)
Fixpoint deepcopy_rec (n : nat) (v : pyval) (h : heap) : option (pyval * heap) :=
  match v with
  | VRef l =>
      match n with
      | O => None
      | S n' =>
          match h !! l with
          | Some (ODict items) =>
              match copy_items (deepcopy_rec n') items.*2 h with
              | Some (xs, h') => Some (alloc (ODict (zip items.*1 xs)) h')
              | None => None
              end
          | Some (OList items) =>
              match copy_items (deepcopy_rec n') items h with
              | Some (xs, h') => Some (alloc (OList xs) h')
              | None => None
              end
          | None => None
          end
      end
  | atom => Some (atom, h)
  end.

(** ** The Kafka client *)

Module Kafka.

(** What can be registered as a delivery callback: the module-level
    function [delivery_report], or an attribute read off a [Publisher]. *)
Inductive callable : Type :=
| delivery_report_function
| attribute (name : string).

(** [confluent_kafka.Message]: [topic()], [partition()], [value()] and
    [error()].  *)
Record Message : Type := mkMessage {
  topic : string;
  partition : Z;
  value : bytes;
  error : option string
}.

(** What the broker eventually answers for a message in flight. *)
Inductive fate : Type :=
| Delivered (part : Z)
| Failed (err : string).

(** The calls made on a producer handle, as the handle sees them. *)
Inductive producer_call : Type :=
| Produce (topic : string) (v : pyval) (callback : callable)
| ProducerPoll (timeout : Z)
| Flush.

(** [confluent_kafka.Producer].  [queue] holds the messages accepted by
    [produce] whose delivery report has not been served yet, oldest first;
    it holds at most [capacity] of them ([queue.buffering.max.messages]).
    [broker] is the environment: its n-th entry lists the reports that are
    ready when the n-th [poll] returns.  [calls] is the history of the
    handle, [reported] the delivery reports served so far, as the
    [(err, msg)] a callback was called with. *)
Record Producer : Type := mkProducer {
  config : list (string * string);
  capacity : nat;
  queue : list (Message * callable);
  broker : list (list fate);
  calls : list producer_call;
  reported : list (option string * Message)
}.

(** The calls made on a consumer handle. *)
Inductive consumer_call : Type :=
| Subscribe (topics : list string)
| ConsumerPoll (timeout : Z)
| Close.

(** What one [Consumer.poll] does: it times out and returns [None], it
    returns a message, or it raises (an interrupt of the blocking call, a
    client error). *)
Inductive poll_response : Type :=
| TimedOut
| Received (msg : Message)
| Interrupted (e : exn).

(** [confluent_kafka.Consumer]: its configuration, its subscription and
    whether the handle is still open. *)
Record Consumer : Type := mkConsumer {
  consumer_config : list (string * string);
  subscription : list string;
  is_open : bool;
  consumer_calls : list consumer_call
}.

End Kafka.

Import Kafka.

(** ** The publishing process *)

(** The part of the interpreter state a [Publisher] works on: the heap
    its caller's documents live in, the recursion limit
    ([sys.getrecursionlimit()]: how deep [copy.deepcopy] and the codec can
    descend before Python raises [RecursionError]), the producer handle
    it owns, and the standard output its delivery callback prints to. *)
Record pub_world : Type := mkPubWorld {
  pw_heap : heap;
  pw_limit : nat;
  pw_producer : Producer;
  pw_stdout : list string
}.

Definition set_heap (h : heap) (w : pub_world) : pub_world :=
  mkPubWorld h (pw_limit w) (pw_producer w) (pw_stdout w).

Definition set_producer (p : Producer) (w : pub_world) : pub_world :=
  mkPubWorld (pw_heap w) (pw_limit w) p (pw_stdout w).

Definition set_queue (q : list (Message * callable)) (p : Producer) : Producer :=
  mkProducer (config p) (capacity p) q (broker p) (calls p) (reported p).

Definition set_broker (b : list (list fate)) (p : Producer) : Producer :=
  mkProducer (config p) (capacity p) (queue p) b (calls p) (reported p).

Definition log_call (c : producer_call) (p : Producer) : Producer :=
  mkProducer (config p) (capacity p) (queue p) (broker p) (calls p ++ [c])
    (reported p).

Definition log_report (r : option string * Message) (p : Producer) : Producer :=
  mkProducer (config p) (capacity p) (queue p) (broker p) (calls p)
    (reported p ++ [r]).

Definition on_producer (f : Producer -> Producer) : M pub_world unit :=
  modify (fun w => set_producer (f (pw_producer w)) w).

Definition pub_print (line : string) : M pub_world unit :=
  modify (fun w => mkPubWorld (pw_heap w) (pw_limit w) (pw_producer w)
                     (pw_stdout w ++ [line])).

(** [delivery_report(err, msg)], lines 9-16. *)
Definition delivery_report (err : option string) (msg : Message) : M pub_world unit :=
  match err with
  | Some e => pub_print ("Message delivery failed: " +:+ e)
  | None =>
      pub_print ("Message delivered to " +:+ topic msg +:+ " ["
                 +:+ pretty (partition msg) +:+ "]")
  end.

(** The client calling back.  No attribute of a [Publisher] is ever
    registered by the module (see [Publisher.__call__]); calling one with
    [(err, msg)] is approximated by a [TypeError]. *)
Definition invoke (cb : callable) (err : option string) (msg : Message)
    : M pub_world unit :=
  match cb with
  | delivery_report_function => delivery_report err msg
  | attribute a => raise (TypeError (a +:+ " is not a delivery callback"))
  end.

(** The arguments a callback gets for a message whose fate is known. *)
Definition report (f : fate) (m : Message) : option string * Message :=
  match f with
  | Delivered p => (None, mkMessage (topic m) p (value m) None)
  | Failed e => (Some e, mkMessage (topic m) (partition m) (value m) (Some e))
  end.

(** Serve delivery reports, oldest message first; returns how many. *)
Fixpoint serve (fs : list fate) : M pub_world nat :=
  match fs with
  | [] => ret 0
  | f :: fs' =>
      w <- get ;;
      match queue (pw_producer w) with
      | [] => ret 0
      | (m, cb) :: q =>
          on_producer (set_queue q) ;;
          on_producer (log_report (report f m)) ;;
          invoke cb (report f m).1 (report f m).2 ;;
          n <- serve fs' ;;
          ret (S n)
      end
  end.

(** What [produce] accepts as a message value. *)
Definition payload (v : pyval) : option bytes :=
  match v with
  | VBytes b => Some b
  | VStr s => Some (String.list_byte_of_string s)
  | VNone => Some []
  | _ => None
  end.

(** [Producer.produce(topic, value, callback)]: queue the message, or
    raise [BufferError] when the local queue is full. *)
Definition Producer_produce (tp : string) (v : pyval) (cb : callable)
    : M pub_world unit :=
  on_producer (log_call (Produce tp v cb)) ;;
  match payload v with
  | None => raise (TypeError "a bytes-like object is required")
  | Some b =>
      w <- get ;;
      let p := pw_producer w in
      if bool_decide (capacity p <= length (queue p))%nat
      then raise (BufferError "Local: Queue full")
      else on_producer (set_queue (queue p ++ [(mkMessage tp (-1) b None, cb)]))
  end.

(** [Producer.poll(timeout)]: wait at most [timeout] seconds and serve
    the delivery reports that are ready by then. *)
Definition Producer_poll (timeout : Z) : M pub_world nat :=
  on_producer (log_call (ProducerPoll timeout)) ;;
  w <- get ;;
  match broker (pw_producer w) with
  | [] => ret 0
  | ready :: later => on_producer (set_broker later) ;; serve ready
  end.

(** [Producer.flush()]: wait until every message in the queue has its
    report, and serve them all.  A message the broker script says nothing
    about is delivered to partition 0. *)
Definition Producer_flush : M pub_world nat :=
  on_producer (log_call Flush) ;;
  w <- get ;;
  let p := pw_producer w in
  let n := length (queue p) in
  let answers := concat (broker p) in
  on_producer (set_broker match drop n answers with
                          | [] => []
                          | rest => [rest]
                          end) ;;
  serve (take n (answers ++ replicate n (Delivered 0))) ;;
  ret 0.

(** [copy.deepcopy(doc)] as a statement. *)
Definition deepcopy (doc : pyval) : M pub_world pyval :=
  fun w =>
    match deepcopy_rec (pw_limit w) doc (pw_heap w) with
    | Some (doc', h') => (Ok doc', set_heap h' w)
    | None => (Raise RecursionError, w)
    end.

Module Publisher.

(** The attributes [__init__] sets; [self.producer] is the handle held in
    the world. *)
Record t : Type := mk {
  address : string;
  _serializer : pyobj -> result bytes
}.

(** [Publisher(address, serializer=...)], lines 42-46.  [cap] and [script]
    are the environment of the new producer handle; [h], [limit] and
    [out] are the interpreter state the instance is created in. *)
Definition __init__ (addr : string) (serializer : pyobj -> result bytes)
    (cap : nat) (script : list (list fate))
    (h : heap) (limit : nat) (out : list string) : t * pub_world :=
  (mk addr serializer,
   mkPubWorld h limit
     (mkProducer [("bootstrap.servers", addr)] cap [] script [] []) out).

(** The names [self.<name>] resolves: the attributes [__init__] sets and
    those the class body defines (the ones every object has, such as
    [__class__], are left out). *)
Definition attributes : list string :=
  ["address"; "producer"; "_serializer"; "__init__"; "__call__"; "close"].

(** [self.<name>] in a position where a callback is expected. *)
Definition getattr (self : t) (name : string) : M pub_world callable :=
  if bool_decide (name ∈ attributes)
  then ret (attribute name)
  else raise (AttributeError "Publisher" name).

(** [self._serializer((name, doc))]: the codec walks the tuple. *)
Definition call_serializer (self : t) (name : string) (doc : pyval)
    : M pub_world bytes :=
  fun w =>
    match snapshot (pw_limit w) (pw_heap w) doc with
    | Some d => lift (_serializer self (PyTuple [PyStr name; d])) w
    | None => (Raise RecursionError, w)
    end.

(** [Publisher.__call__(self, name, doc)], lines 48-61. *)
Definition __call__ (self : t) (name : string) (doc : pyval) : M pub_world unit :=
  doc <- deepcopy doc ;;
  try_except
    (wire <- call_serializer self name doc ;;
     Producer_produce "bluesky-event" (VBytes wire) delivery_report_function ;;
     Producer_poll 0 ;;
     ret tt)
    is_BufferError
    (fun be =>
       Producer_poll 10 ;;
       callback <- getattr self "delivery_report" ;;
       Producer_produce "bluesky-event" doc callback).

(** [Publisher.close(self)], lines 63-64. *)
Definition close (self : t) : M pub_world unit :=
  Producer_flush ;; ret tt.

End Publisher.

(** ** The upstream engine: [DocumentNames] and [Dispatcher] *)

Module DocumentNames.

(** Modelled from the spec: [DocumentNames] is imported from
    [..run_engine], which is not part of the sources at hand.  The spec
    describes it as a small closed enumeration of the roles a document
    plays in the stream and names start, descriptor, event and stop. *)
Inductive t : Type :=
| start
| descriptor
| event
| stop.

Definition name (d : t) : string :=
  match d with
  | start => "start"
  | descriptor => "descriptor"
  | event => "event"
  | stop => "stop"
  end.

Definition members : list t := [start; descriptor; event; stop].

(** [DocumentNames[key]]: look a member up by name.  A key that names no
    member is a [KeyError]; a key that cannot be hashed is a
    [TypeError]. *)
Definition getitem (key : pyobj) : result t :=
  match key with
  | PyStr s =>
      match find (fun d => bool_decide (name d = s)) members with
      | Some d => Returns d
      | None => Raises (KeyError s)
      end
  | other =>
      if hashable other
      then Raises (KeyError (py_repr other))
      else Raises (TypeError ("unhashable type: '" +:+ type_name other +:+ "'"))
  end.

End DocumentNames.

(** The double quote and the line feed of the format strings. *)
Definition dquote : string := String (Ascii.ascii_of_nat 34) EmptyString.
Definition newline : string := String (Ascii.ascii_of_nat 10) EmptyString.

(** The items [for x in v] yields, when [v] can be iterated. *)
Definition py_iter (v : pyobj) : option (list pyobj) :=
  match v with
  | PyTuple xs | PyList xs => Some xs
  | PyDict items => Some (map (fun kv => PyStr kv.1) items)
  | PyStr s =>
      Some (map (fun c => PyStr (String c EmptyString))
              (String.list_ascii_of_string s))
  | PyBytes b => Some (map (fun c => PyInt (Z.of_N (Byte.to_N c))) b)
  | PyNone | PyInt _ => None
  end.

(** [a, b = v]: unpacking into two targets. *)
Definition unpack2 (v : pyobj) : result (pyobj * pyobj) :=
  match py_iter v with
  | None =>
      Raises (TypeError ("cannot unpack non-iterable " +:+ type_name v +:+ " object"))
  | Some [a; b] => Returns (a, b)
  | Some (_ :: _ :: _ :: _) =>
      Raises (ValueError "too many values to unpack (expected 2)")
  | Some items =>
      Raises (ValueError ("not enough values to unpack (expected 2, got "
                          +:+ pretty (length items) +:+ ")"))
  end.

(** ** The dispatching process *)

(** A registered callback: called with a document, it returns or
    raises. *)
Definition subscriber : Type := DocumentNames.t -> pyobj -> result unit.

(** The part of the interpreter state a [RemoteDispatcher] works on: the
    consumer handle it owns, its [closed] attribute, standard output, and
    the history of the fan-out: [dw_processed] lists the calls of
    [process], [dw_delivered] the calls of the subscribers (by position in
    the registry). *)
Record disp_world : Type := mkDispWorld {
  dw_consumer : Consumer;
  dw_closed : bool;
  dw_stdout : list string;
  dw_processed : list (DocumentNames.t * pyobj);
  dw_delivered : list (nat * DocumentNames.t * pyobj)
}.

Definition on_consumer (f : Consumer -> Consumer) : M disp_world unit :=
  modify (fun w => mkDispWorld (f (dw_consumer w)) (dw_closed w) (dw_stdout w)
                     (dw_processed w) (dw_delivered w)).

Definition set_closed (b : bool) : M disp_world unit :=
  modify (fun w => mkDispWorld (dw_consumer w) b (dw_stdout w)
                     (dw_processed w) (dw_delivered w)).

Definition disp_print (line : string) : M disp_world unit :=
  modify (fun w => mkDispWorld (dw_consumer w) (dw_closed w) (dw_stdout w ++ [line])
                     (dw_processed w) (dw_delivered w)).

Definition log_processed (name : DocumentNames.t) (doc : pyobj) : M disp_world unit :=
  modify (fun w => mkDispWorld (dw_consumer w) (dw_closed w) (dw_stdout w)
                     (dw_processed w ++ [(name, doc)]) (dw_delivered w)).

Definition log_delivered (i : nat) (name : DocumentNames.t) (doc : pyobj)
    : M disp_world unit :=
  modify (fun w => mkDispWorld (dw_consumer w) (dw_closed w) (dw_stdout w)
                     (dw_processed w) (dw_delivered w ++ [(i, name, doc)])).

Definition log_consumer_call (c : consumer_call) (k : Consumer) : Consumer :=
  mkConsumer (consumer_config k) (subscription k) (is_open k) (consumer_calls k ++ [c]).

(** [Consumer.subscribe(topics)]. *)
Definition Consumer_subscribe (topics : list string) : M disp_world unit :=
  on_consumer (log_consumer_call (Subscribe topics)) ;;
  w <- get ;;
  if is_open (dw_consumer w)
  then on_consumer (fun k => mkConsumer (consumer_config k) topics (is_open k)
                               (consumer_calls k))
  else raise (RuntimeError "Consumer closed").

(** [Consumer.poll(timeout)], answered by [r].  A closed handle raises
    whatever the broker would have answered. *)
Definition Consumer_poll (timeout : Z) (r : poll_response)
    : M disp_world (option Message) :=
  on_consumer (log_consumer_call (ConsumerPoll timeout)) ;;
  w <- get ;;
  if is_open (dw_consumer w)
  then match r with
       | TimedOut => ret None
       | Received msg => ret (Some msg)
       | Interrupted e => raise e
       end
  else raise (RuntimeError "Consumer closed").

(** [Consumer.close()]: release the handle.  On a handle that has been
    released already the call does nothing and returns. *)
Definition Consumer_close : M disp_world unit :=
  on_consumer (log_consumer_call Close) ;;
  w <- get ;;
  if is_open (dw_consumer w)
  then on_consumer (fun k => mkConsumer (consumer_config k) (subscription k) false
                               (consumer_calls k))
  else ret tt.

Module Dispatcher.

(** Modelled from the spec: [Dispatcher] is imported from [..run_engine],
    which is not part of the sources at hand.  The spec describes
    [process] as the local fan-out: called once per document with
    [(DocumentName, Document)], it calls the registered subscriber
    callbacks in registration order.  An exception of a callback ends the
    fan-out and reaches the caller of [process]. *)
Fixpoint fan_out (subs : list subscriber) (i : nat) (name : DocumentNames.t)
    (doc : pyobj) : M disp_world unit :=
  match subs with
  | [] => ret tt
  | f :: rest =>
      log_delivered i name doc ;;
      lift (f name doc) ;;
      fan_out rest (S i) name doc
  end.

Definition process (subs : list subscriber) (name : DocumentNames.t) (doc : pyobj)
    : M disp_world unit :=
  log_processed name doc ;;
  fan_out subs 0 name doc.

End Dispatcher.

Module RemoteDispatcher.

(** The attributes that do not change once the instance is built.
    [subscribers] is the registry of the [Dispatcher] base class, [repr]
    is [repr(self)]; [self.consumer] and [self.closed] are in the world. *)
Record t : Type := mk {
  address : string;
  _deserializer : bytes -> result pyobj;
  subscribers : list subscriber;
  repr : string
}.

(** [RemoteDispatcher(address, group_id=..., deserializer=...)], lines
    87-102. *)
Definition __init__ (addr group_id : string) (deserializer : bytes -> result pyobj)
    (self_repr : string) (out : list string) : t * (outcome unit * disp_world) :=
  let consumer_params :=
    [("bootstrap.servers", addr); ("group.id", group_id);
     ("auto.offset.reset", "latest")] in
  (mk addr deserializer [] self_repr,
   (Consumer_subscribe ["bluesky-event"] ;; set_closed false)
     (mkDispWorld (mkConsumer consumer_params [] true []) false out [] [])).

(** Modelled from the spec: [subscribe] belongs to the [Dispatcher] base
    class; it registers a callback after those already registered. *)
Definition subscribe (self : t) (f : subscriber) : t :=
  mk (address self) (_deserializer self) (subscribers self ++ [f]) (repr self).

(** [self.process(name, doc)], inherited from [Dispatcher]. *)
Definition process (self : t) (name : DocumentNames.t) (doc : pyobj)
    : M disp_world unit :=
  Dispatcher.process (subscribers self) name doc.

(** One turn of the [while True] loop of [_poll], lines 106-117, with
    [r] the answer of the broker to this turn's [poll]. *)
Definition _poll_body (self : t) (r : poll_response) : M disp_world unit :=
  msg <- Consumer_poll 1 r ;;
  match msg with
  | None => ret tt
  | Some msg =>
      match error msg with
      | Some err => disp_print ("Consumer error: " +:+ err)
      | None =>
          disp_print ("msg is " +:+ dquote +:+ topic msg +:+ dquote) ;;
          pair <- lift (_deserializer self (value msg)) ;;
          name_doc <- lift (unpack2 pair) ;;
          let name := name_doc.1 in
          let doc := name_doc.2 in
          disp_print (dquote +:+ py_str name +:+ dquote +:+ ":" +:+ newline
                      +:+ py_str doc) ;;
          member <- lift (DocumentNames.getitem name) ;;
          process self member doc
      end
  end.

(** [RemoteDispatcher._poll(self)], lines 104-117, run against the
    answers the broker gives to the successive polls.  The loop has no
    exit of its own: when the answers observed so far are used up it is
    blocked in the next [poll]. *)
Fixpoint _poll (self : t) (responses : list poll_response) : M disp_world unit :=
  match responses with
  | [] => pending
  | r :: later => _poll_body self r ;; _poll self later
  end.

(** [RemoteDispatcher.stop(self)], lines 130-132. *)
Definition stop (self : t) : M disp_world unit :=
  Consumer_close ;;
  set_closed true.

(** [RemoteDispatcher.start(self)], lines 119-128. *)
Definition start (self : t) (responses : list poll_response) : M disp_world unit :=
  w <- get ;;
  if dw_closed w
  then raise (RuntimeError
                ("This RemoteDispatcher has already been "
                 +:+ "started and interrupted. Create a fresh "
                 +:+ "instance with " +:+ repr self))
  else try_except (_poll self responses)
         (fun _ => true)
         (fun e => stop self ;; raise e).

End RemoteDispatcher.

(** ** Vocabulary of the properties *)

(** The locations [h'] has and [h] has not hold the same objects in
    [h2]: whatever else happened to the heap on the way to [h2], the
    objects allocated between [h] and [h'] were left alone. *)
Definition preserves_new (h h' h2 : heap) : Prop :=
  forall l, l ∈ dom h' -> l ∉ dom h -> h2 !! l = h' !! l.

(** Every message in flight was registered with [delivery_report]. *)
Definition reports_only (p : Producer) : Prop :=
  Forall (fun mc => mc.2 = delivery_report_function) (queue p).

(** The local queue has no room: [produce] raises [BufferError]. *)
Definition queue_full (p : Producer) : Prop :=
  (capacity p <= length (queue p))%nat.

(** The world once the reports [fs] have been served to the oldest
    messages in flight and [out] has been printed. *)
Definition served (fs : list fate) (out : list string) (w : pub_world) : pub_world :=
  let p := pw_producer w in
  mkPubWorld (pw_heap w) (pw_limit w)
    (mkProducer (config p) (capacity p) (drop (length fs) (queue p)) (broker p)
       (calls p) (reported p ++ zip_with report fs (queue p).*1))
    (pw_stdout w ++ out).

(** The reports that are ready at the next [poll]. *)
Definition ready (p : Producer) : list fate :=
  match broker p with
  | [] => []
  | fs :: _ => fs
  end.

(** The reports [flush] serves: one for each message in flight. *)
Definition final_fates (p : Producer) : list fate :=
  take (length (queue p))
    (concat (broker p) ++ replicate (length (queue p)) (Delivered 0)).

(** The [Produce] calls among the calls on a handle. *)
Definition is_submission (c : producer_call) : bool :=
  match c with
  | Produce _ _ _ => true
  | _ => false
  end.

Definition submissions (cs : list producer_call) : list producer_call :=
  List.filter is_submission cs.

(** A poll the loop has nothing to do for: a timeout, or a message that
    carries an error of the broker. *)
Definition skipped (r : poll_response) : bool :=
  match r with
  | TimedOut => true
  | Received msg => bool_decide (is_Some (error msg))
  | Interrupted _ => false
  end.

Definition and_then {A B} (r : result A) (k : A -> result B) : result B :=
  match r with
  | Returns a => k a
  | Raises e => Raises e
  end.

(** What lines 115 and 117 compute from a payload before the fan-out is
    called: the member of [DocumentNames] and the document. *)
Definition decoded (self : RemoteDispatcher.t) (msg : Message)
    : result (DocumentNames.t * pyobj) :=
  and_then (RemoteDispatcher._deserializer self (value msg)) (fun pair =>
  and_then (unpack2 pair) (fun name_doc =>
  and_then (DocumentNames.getitem name_doc.1) (fun member =>
  Returns (member, name_doc.2)))).

(** No subscriber raises on the document. *)
Definition accepted (self : RemoteDispatcher.t) (nd : DocumentNames.t * pyobj) : Prop :=
  Forall (fun f : subscriber => f nd.1 nd.2 = Returns tt)
    (RemoteDispatcher.subscribers self).

(** A message that carries a document: no broker error, and a payload
    the codec reads as [(name, document)] with [name] a document name. *)
Definition decodes (self : RemoteDispatcher.t) (msg : Message)
    (nd : DocumentNames.t * pyobj) : Prop :=
  error msg = None /\ decoded self msg = Returns nd.

(** A valid message and the pair it carries: the message carries a
    document, and no subscriber raises on it. *)
Definition valid (self : RemoteDispatcher.t) (msg : Message)
    (nd : DocumentNames.t * pyobj) : Prop :=
  decodes self msg nd /\ accepted self nd.

(** The subscriber calls one document causes: every subscriber once, in
    registration order. *)
Definition fanned_out (self : RemoteDispatcher.t) (nd : DocumentNames.t * pyobj)
    : list (nat * DocumentNames.t * pyobj) :=
  imap (fun i _ => (i, nd.1, nd.2)) (RemoteDispatcher.subscribers self).

(** The handle and the flag agree: the instance is stopped exactly when
    its consumer is closed. *)
Definition consistent (w : disp_world) : Prop :=
  dw_closed w = negb (is_open (dw_consumer w)).

(** The same statement run in a world whose heap was replaced: a
    statement is blind to the heap when it does the same and leaves the
    replaced heap in place. *)
Definition heap_blind {A} (c : M pub_world A) : Prop :=
  forall h2 w, c (set_heap h2 w) = ((c w).1, set_heap h2 (c w).2).

(** The world of a dispatcher after [n] polls that printed [out] and
    handed the documents [nds] to the fan-out, each to every subscriber:
    nothing else has changed. *)
Definition advanced (self : RemoteDispatcher.t) (n : nat) (out : list string)
    (nds : list (DocumentNames.t * pyobj)) (w : disp_world) : disp_world :=
  let k := dw_consumer w in
  mkDispWorld
    (mkConsumer (consumer_config k) (subscription k) (is_open k)
       (consumer_calls k ++ replicate n (ConsumerPoll 1)))
    (dw_closed w)
    (dw_stdout w ++ out)
    (dw_processed w ++ nds)
    (dw_delivered w ++ flat_map (fanned_out self) nds).

(** Nothing happened to the lifecycle of the instance between two
    worlds: same flag, same state of the handle. *)
Definition same_instance (w w' : disp_world) : Prop :=
  dw_closed w' = dw_closed w /\
  is_open (dw_consumer w') = is_open (dw_consumer w).

(** The world [stop] leaves when the handle was open: the handle is
    released, the flag is set. *)
Definition stopped (w : disp_world) : disp_world :=
  let k := dw_consumer w in
  mkDispWorld
    (mkConsumer (consumer_config k) (subscription k) false (consumer_calls k ++ [Close]))
    true (dw_stdout w) (dw_processed w) (dw_delivered w).

(** The message of the [RuntimeError] of [start], lines 121-123. *)
Definition already_started (self : RemoteDispatcher.t) : string :=
  "This RemoteDispatcher has already been "
  +:+ "started and interrupted. Create a fresh "
  +:+ "instance with " +:+ RemoteDispatcher.repr self.

(** The payloads a producer has taken charge of, oldest first: those it
    has served a delivery report for, then those still in flight. *)
Definition accepted_payloads (p : Producer) : list bytes :=
  map (fun r => value r.2) (reported p) ++ map (fun mc => value mc.1) (queue p).

(** What a user does with a dispatcher once it is built: calls of
    [start], each with the answers the broker gives while it runs, and
    calls of [stop]. *)
Inductive lifecycle_call : Type :=
| CallStart (responses : list poll_response)
| CallStop.

(** The world after such calls, made one after the other, whatever each
    of them comes to. *)
Definition after_call (self : RemoteDispatcher.t) (w : disp_world)
    (c : lifecycle_call) : disp_world :=
  match c with
  | CallStart responses => (RemoteDispatcher.start self responses w).2
  | CallStop => (RemoteDispatcher.stop self w).2
  end.

Definition after_calls (self : RemoteDispatcher.t) (cs : list lifecycle_call)
    (w : disp_world) : disp_world :=
  fold_left (after_call self) cs w.

(** The polls among the calls made on a consumer handle. *)
Definition is_consumer_poll (c : consumer_call) : bool :=
  match c with ConsumerPoll _ => true | _ => false end.

Definition polls (k : Consumer) : list consumer_call :=
  List.filter is_consumer_poll (consumer_calls k).

(** A statement that prints [line] and does nothing else, in whatever
    world it runs. *)
Definition prints (c : M pub_world unit) (line : string) : Prop :=
  forall w,
    c w = (Ok tt, mkPubWorld (pw_heap w) (pw_limit w) (pw_producer w)
                    (pw_stdout w ++ [line])).

(** What happens around a publisher once it is built: calls of
    [publish], calls of [close], and in between the caller doing what it
    likes to its own objects. *)
Inductive publisher_call : Type :=
| CallPublish (name : string) (doc : pyval)
| CallClose
| CallerWrites (h : heap).

Definition after_publisher_call (self : Publisher.t) (w : pub_world)
    (c : publisher_call) : pub_world :=
  match c with
  | CallPublish name doc => (Publisher.__call__ self name doc w).2
  | CallClose => (Publisher.close self w).2
  | CallerWrites h => set_heap h w
  end.

Definition after_publisher_calls (self : Publisher.t) (cs : list publisher_call)
    (w : pub_world) : pub_world :=
  fold_left (after_publisher_call self) cs w.

(** ** Another thread at work on the caller's objects *)

(** What another thread does to the heap when the interpreter switches
    to it. *)
Definition write : Type := heap -> heap.

(** The heap, and the writes the other thread has still to make. *)
Definition raced : Type := heap * list write.

(** A point where the interpreter may switch threads: the other thread
    makes its next write, if it has one left. *)
Definition switch (s : raced) : raced :=
  match s.2 with
  | [] => s
  | f :: later => (f s.1, later)
  end.

(** [copy_items] with a switch before each item is copied. *)
Fixpoint copy_items_racing (copy : pyval -> raced -> option pyval * raced)
    (xs : list pyval) (s : raced) : option (list pyval) * raced :=
  match xs with
  | [] => (Some [], s)
  | x :: xs' =>
      match copy x (switch s) with
      | (Some x', s1) =>
          match copy_items_racing copy xs' s1 with
          | (Some xs'', s2) => (Some (x' :: xs''), s2)
          | (None, s2) => (None, s2)
          end
      | (None, s1) => (None, s1)
      end
  end.

(** [copy.deepcopy] while another thread writes: [deepcopy_rec] with the
    switches of [copy_items_racing].  The loops of [copy.deepcopy] over
    the items of a container are Python code, and the interpreter may
    switch threads between two turns.  As in [deepcopy_rec] the items of
    a container are read when its copy begins, so a write is seen by the
    copy only if it is made to a container the copy has not reached. *)
Fixpoint deepcopy_racing (n : nat) (v : pyval) (s : raced) : option pyval * raced :=
  match v with
  | VRef l =>
      match n with
      | O => (None, s)
      | S n' =>
          match s.1 !! l with
          | Some (ODict items) =>
              match copy_items_racing (deepcopy_racing n') items.*2 s with
              | (Some xs, s') =>
                  (Some (alloc (ODict (zip items.*1 xs)) s'.1).1,
                   ((alloc (ODict (zip items.*1 xs)) s'.1).2, s'.2))
              | (None, s') => (None, s')
              end
          | Some (OList items) =>
              match copy_items_racing (deepcopy_racing n') items s with
              | (Some xs, s') =>
                  (Some (alloc (OList xs) s'.1).1, ((alloc (OList xs) s'.1).2, s'.2))
              | (None, s') => (None, s')
              end
          | None => (None, s)
          end
      end
  | atom => (Some atom, s)
  end.

(** Lines 50-61 of [Publisher.__call__]: what the call does with the
    copy once line 49 has made it. *)
Definition publish_copy (self : Publisher.t) (name : string) (copy : pyval)
    : M pub_world unit :=
  try_except
    (wire <- Publisher.call_serializer self name copy ;;
     Producer_produce "bluesky-event" (VBytes wire) delivery_report_function ;;
     Producer_poll 0 ;;
     ret tt)
    is_BufferError
    (fun be =>
       Producer_poll 10 ;;
       callback <- Publisher.getattr self "delivery_report" ;;
       Producer_produce "bluesky-event" copy callback).

(** [Publisher.__call__] while another thread writes: [during] are the
    writes it makes while line 49 copies the document, one at each
    switch, and [after] is what it has written between the end of the
    copy and the moment line 52 serializes it. *)
Definition call_racing (self : Publisher.t) (name : string) (doc : pyval)
    (during : list write) (after : write) : M pub_world unit :=
  fun w =>
    match deepcopy_racing (pw_limit w) doc (pw_heap w, during) with
    | (Some copy, s) => publish_copy self name copy (set_heap (after s.1) w)
    | (None, s) => (Raise RecursionError, set_heap (after s.1) w)
    end.

(** A write of the caller's: it changes objects that existed when the
    call was made (heap [h0]) and no other; the caller holds no
    reference to what the call allocates. *)
Definition callers (h0 : heap) (f : write) : Prop :=
  forall h, preserves_new h0 h (f h).

(** ** A run of the scenario of the spec *)

Module Scenario.

(** A codec for the examples: the [repr] of the value as bytes, read
    back by looking the bytes up among known values. *)
Definition encode (v : pyobj) : bytes := String.list_byte_of_string (py_repr v).

Definition dumps (v : pyobj) : result bytes := Returns (encode v).

Definition loads (known : list pyobj) (b : bytes) : result pyobj :=
  match find (fun v => bool_decide (encode v = b)) known with
  | Some v => Returns v
  | None => Raises (UserError "UnpicklingError")
  end.

Definition start_doc : pyobj := PyDict [("uid", PyStr "abc")].

Definition stop_doc : pyobj :=
  PyDict [("uid", PyStr "abc"); ("exit_status", PyStr "success")].

(** The caller's documents: two dicts on the heap. *)
Definition caller_heap : heap :=
  <[1%positive := ODict [("uid", VStr "abc")]]>
    (<[2%positive := ODict [("uid", VStr "abc"); ("exit_status", VStr "success")]]> ∅).

(** A publisher whose producer holds one message at a time; the broker
    acknowledges nothing at the first poll and one message at the
    second. *)
Definition publisher : Publisher.t :=
  (Publisher.__init__ "localhost:9092" dumps 1 [[]; [Delivered 0]]
     caller_heap 1000 []).1.

Definition world0 : pub_world :=
  (Publisher.__init__ "localhost:9092" dumps 1 [[]; [Delivered 0]]
     caller_heap 1000 []).2.

(** [publish("start", {"uid": "abc"})] leaves the queue full. *)
Definition after_start : pub_world :=
  (Publisher.__call__ publisher "start" (VRef 1%positive) world0).2.

(** [publish("stop", {...})] on the full queue. *)
Definition after_stop : outcome unit * pub_world :=
  Publisher.__call__ publisher "stop" (VRef 2%positive) after_start.

Definition wire_start : bytes := encode (PyTuple [PyStr "start"; start_doc]).
Definition wire_stop : bytes := encode (PyTuple [PyStr "stop"; stop_doc]).

(** A dispatcher with one subscriber that takes every document. *)
Definition keep : subscriber := fun _ _ => Returns tt.

Definition dispatcher : RemoteDispatcher.t :=
  RemoteDispatcher.subscribe
    (RemoteDispatcher.__init__ "localhost:9092" "kafka-bluesky"
       (loads [PyTuple [PyStr "start"; start_doc]; PyTuple [PyStr "stop"; stop_doc]])
       "<RemoteDispatcher object>" []).1
    keep.

Definition fresh_world : disp_world :=
  (RemoteDispatcher.__init__ "localhost:9092" "kafka-bluesky"
     (loads [PyTuple [PyStr "start"; start_doc]; PyTuple [PyStr "stop"; stop_doc]])
     "<RemoteDispatcher object>" []).2.2.

Definition message (b : bytes) : Message := mkMessage "bluesky-event" 0 b None.

Definition broker_error : Message :=
  mkMessage "bluesky-event" 0 [] (Some "KafkaError{code=_TRANSPORT}").

(** A payload the codec cannot read. *)
Definition poisoned : Message := message (String.list_byte_of_string "garbage").

End Scenario.

(** ** Runs that go wrong *)

Module Faults.

Import Scenario.

(** A serializer that raises on every document. *)
Definition refusing (e : exn) : pyobj -> result bytes := fun _ => Raises e.

Definition refused (e : exn) : Publisher.t :=
  (Publisher.__init__ "localhost:9092" (refusing e) 1 [] caller_heap 1000 []).1.

(** Payloads the codec reads, but not as a named document: a pair whose
    name is no member of [DocumentNames], and a value that is no pair. *)
Definition unnamed : pyobj := PyTuple [PyStr "bogus"; start_doc].

Definition triple : pyobj := PyTuple [PyStr "start"; start_doc; PyNone].

Definition lenient : RemoteDispatcher.t :=
  RemoteDispatcher.subscribe
    (RemoteDispatcher.__init__ "localhost:9092" "kafka-bluesky"
       (loads [PyTuple [PyStr "start"; start_doc]; unnamed; triple])
       "<RemoteDispatcher object>" []).1
    keep.

(** A subscriber that raises on stop documents, registered between two
    that take everything. *)
Definition picky : subscriber :=
  fun name _ =>
    match name with
    | DocumentNames.stop => Raises (UserError "no stop documents")
    | _ => Returns tt
    end.

Definition crowded : RemoteDispatcher.t :=
  RemoteDispatcher.subscribe
    (RemoteDispatcher.subscribe dispatcher picky) keep.

End Faults.

(** ** A run with another thread *)

Module Race.

Import Scenario.

(** An event document with a nested dict of readings. *)
Definition event_heap : heap :=
  <[3%positive := ODict [("seq_num", VInt 1); ("data", VRef 4%positive)]]>
    (<[4%positive := ODict [("x", VInt 1)]]> ∅).

Definition world : pub_world :=
  (Publisher.__init__ "localhost:9092" dumps 1 [] event_heap 1000 []).2.

(** What the document denotes when [publish] is called. *)
Definition at_call : pyobj :=
  PyDict [("seq_num", PyInt 1); ("data", PyDict [("x", PyInt 1)])].

(** The other thread runs [doc["data"]["x"] = 2]. *)
Definition overwrite : write := <[4%positive := ODict [("x", VInt 2)]]>.

Definition overwritten : pyobj :=
  PyDict [("seq_num", PyInt 1); ("data", PyDict [("x", PyInt 2)])].

(** The other thread runs [doc["uid"] = "changed"] on the start
    document of the scenario. *)
Definition rename : write := <[1%positive := ODict [("uid", VStr "changed")]]>.

End Race.

(** ** Tactics *)

(** Unfold the statements of the publishing side one step. *)
Ltac run :=
  unfold bind, ret, raise, get, modify, lift, pending, on_producer, pub_print; simpl.

(** Unfold the statements of the dispatching side one step. *)
Ltac run_disp :=
  unfold bind, ret, raise, get, modify, lift, pending, on_consumer, set_closed,
    disp_print, log_processed, log_delivered; simpl.

(** * Properties *)

(** ** Copies and the heap *)

Section Heap.

Implicit Types (h : heap) (v : pyval) (n : nat) (d : pyobj).

Lemma snapshot_items_weaken n h h' (xs : list pyval) (ds : list pyobj) :
  (forall v d, snapshot n h v = Some d -> snapshot n h' v = Some d) ->
  mapM (snapshot n h) xs = Some ds -> mapM (snapshot n h') xs = Some ds.
Proof.
  intros Hone. rewrite !mapM_Some.
  intros Hall. eapply Forall2_impl; [exact Hall | exact Hone].
Qed.

Lemma snapshot_weaken n h h' v d :
  h ⊆ h' -> snapshot n h v = Some d -> snapshot n h' v = Some d.
Proof.
  intros Hsub. revert v d.
  induction n as [|n IH]; intros [] d; simpl; try done.
  destruct (h !! l) as [o|] eqn:Hl; [|done].
  rewrite (lookup_weaken _ _ _ _ Hl Hsub).
  destruct o as [items|items]; intros Hd.
  - destruct (mapM (snapshot n h) items.*2) as [ds|] eqn:Hds; [|done].
    by rewrite (snapshot_items_weaken _ _ _ _ _ IH Hds).
  - destruct (mapM (snapshot n h) items) as [ds|] eqn:Hds; [|done].
    by rewrite (snapshot_items_weaken _ _ _ _ _ IH Hds).
Qed.

Lemma preserves_new_refl h h' : preserves_new h h' h'.
Proof. by intros l _ _. Qed.

Lemma preserves_new_first h h1 h2 hx :
  h1 ⊆ h2 -> preserves_new h h2 hx -> preserves_new h h1 hx.
Proof.
  intros Hsub Hx l Hl Hnl.
  apply elem_of_dom in Hl as [o Ho].
  rewrite Ho. rewrite Hx; [|apply elem_of_dom; exists o|done];
    by apply (lookup_weaken _ _ _ _ Ho Hsub).
Qed.

Lemma preserves_new_second h h1 h2 hx :
  h ⊆ h1 -> preserves_new h h2 hx -> preserves_new h1 h2 hx.
Proof.
  intros Hsub Hx l Hl Hnl. apply Hx; [done|].
  intros Hin. apply Hnl. by apply (subseteq_dom _ _ Hsub).
Qed.

Lemma alloc_subseteq o h : h ⊆ (alloc o h).2.
Proof.
  apply insert_subseteq, not_elem_of_dom, is_fresh.
Qed.

(** Copying the items one by one: every copy denotes what its original
    denoted, and keeps doing so however the heap changes outside the new
    locations. *)
Lemma copy_items_spec n (xs : list pyval) :
  (forall v h d, snapshot n h v = Some d ->
     exists v' h', deepcopy_rec n v h = Some (v', h') /\ h ⊆ h' /\
       forall h2, preserves_new h h' h2 -> snapshot n h2 v' = Some d) ->
  forall h ds, mapM (snapshot n h) xs = Some ds ->
    exists xs' h', copy_items (deepcopy_rec n) xs h = Some (xs', h') /\ h ⊆ h' /\
      length xs' = length xs /\
      forall h2, preserves_new h h' h2 -> mapM (snapshot n h2) xs' = Some ds.
Proof.
  intros Hcopy.
  induction xs as [|x xs IH]; intros h ds Hds.
  - exists [], h. apply mapM_Some, Forall2_nil_inv_l in Hds as ->.
    repeat split; done.
  - apply mapM_Some, Forall2_cons_inv_l in Hds as (d & ds' & Hd & Hds' & ->).
    destruct (Hcopy _ _ _ Hd) as (x' & h1 & Hx & Hsub1 & Hind1).
    apply mapM_Some in Hds'.
    apply (snapshot_items_weaken _ _ h1) in Hds';
      [|intros ??; by apply snapshot_weaken].
    destruct (IH _ _ Hds') as (xs' & h2 & Hxs & Hsub2 & Hlen & Hind2).
    exists (x' :: xs'), h2.
    split; [by simpl; rewrite Hx, Hxs|].
    repeat split; [by etrans | by simpl; rewrite Hlen |].
    intros hx Hhx. apply mapM_Some. constructor.
    + apply Hind1. by apply preserves_new_first with h2.
    + apply mapM_Some, Hind2. by apply preserves_new_second with h.
Qed.

(** [copy.deepcopy] succeeds on every document [snapshot] can read; the
    copy denotes the same tree, the heap only grew, and no later change
    to an object that existed before the call shows through the copy. *)
Lemma deepcopy_rec_spec n v h d :
  snapshot n h v = Some d ->
  exists v' h', deepcopy_rec n v h = Some (v', h') /\ h ⊆ h' /\
    forall h2, preserves_new h h' h2 -> snapshot n h2 v' = Some d.
Proof.
  revert v h d.
  induction n as [|n IH]; intros v h d Hd.
  { destruct v as [| | | |l]; [eexists _, h; repeat split; done ..|done]. }
  destruct v as [| | | |l]; try (eexists _, h; repeat split; done).
  simpl in Hd. simpl.
  destruct (h !! l) as [[items|items]|] eqn:Hl; [| |done].
  - destruct (mapM (snapshot n h) items.*2) as [ds|] eqn:Hds; [|done].
    simpl in Hd. injection Hd as <-.
    destruct (copy_items_spec n _ IH _ _ Hds) as (xs' & h' & -> & Hsub & Hlen & Hind).
    eexists _, _. split; [done|]. split.
    { etrans; [exact Hsub | apply alloc_subseteq]. }
    intros hx Hhx. simpl.
    rewrite Hhx; [|apply elem_of_dom; eexists; apply lookup_insert_eq|];
      last first.
    { intros Hin. apply (is_fresh (dom h')), (subseteq_dom _ _ Hsub), Hin. }
    rewrite lookup_insert_eq.
    rewrite snd_zip by (rewrite Hlen, !length_fmap; lia).
    rewrite fst_zip by (rewrite Hlen, !length_fmap; lia).
    rewrite Hind; [done|].
    apply preserves_new_first with (alloc (ODict (zip items.*1 xs')) h').2;
      [apply alloc_subseteq | done].
  - destruct (mapM (snapshot n h) items) as [ds|] eqn:Hds; [|done].
    simpl in Hd. injection Hd as <-.
    destruct (copy_items_spec n _ IH _ _ Hds) as (xs' & h' & -> & Hsub & Hlen & Hind).
    eexists _, _. split; [done|]. split.
    { etrans; [exact Hsub | apply alloc_subseteq]. }
    intros hx Hhx. simpl.
    rewrite Hhx; [|apply elem_of_dom; eexists; apply lookup_insert_eq|];
      last first.
    { intros Hin. apply (is_fresh (dom h')), (subseteq_dom _ _ Hsub), Hin. }
    rewrite lookup_insert_eq.
    rewrite Hind; [done|].
    apply preserves_new_first with (alloc (OList xs') h').2;
      [apply alloc_subseteq | done].
Qed.

End Heap.

(** ** The producer handle *)

Section ProducerRuns.

Implicit Types (w : pub_world) (p : Producer).

Lemma served_nil w : served [] [] w = w.
Proof.
  destruct w as [h lim [c k q b cs rs] o]. unfold served; simpl.
  by rewrite !app_nil_r, drop_0.
Qed.

Lemma delivery_report_prints err msg w :
  exists line,
    delivery_report err msg w =
      (Ok tt, mkPubWorld (pw_heap w) (pw_limit w) (pw_producer w) (pw_stdout w ++ [line])).
Proof. destruct err as [e|]; eexists; reflexivity. Qed.

(** Serving reports to a queue of [delivery_report] callbacks never
    raises: each report takes the oldest message off the queue, records
    it and prints one line. *)
Lemma serve_spec fs w :
  reports_only (pw_producer w) ->
  exists out,
    serve fs w = (Ok (length fs `min` length (queue (pw_producer w))),
                  served fs out w) /\
    length out = length fs `min` length (queue (pw_producer w)).
Proof.
  revert w. induction fs as [|f fs IH]; intros w Hw.
  { exists []. by rewrite served_nil. }
  destruct w as [h lim [c k q b cs rs] o]. unfold reports_only in Hw; simpl in Hw.
  destruct q as [|[m cb] q].
  { exists []. split; [|done]. simpl. run. unfold served; simpl.
    by rewrite !app_nil_r. }
  apply Forall_cons in Hw as [Hcb Hq]. simpl in Hcb. subst cb.
  set (w1 := mkPubWorld h lim (mkProducer c k q b cs (rs ++ [report f m])) o).
  destruct (delivery_report_prints (report f m).1 (report f m).2 w1) as [line Hline].
  destruct (IH (mkPubWorld h lim (pw_producer w1) (o ++ [line])) Hq)
    as (out & Hrun & Hlen).
  exists (line :: out). split; [|simpl in *; lia].
  simpl. run. unfold set_producer, log_report, set_queue; simpl.
  fold w1. rewrite Hline. simpl in *. rewrite Hrun.
  unfold served; simpl. by rewrite <- !app_assoc.
Qed.

(** Nothing a handle does while serving reports touches the heap or the
    history of calls, and a callback that fails does not fail with
    [BufferError]. *)
Lemma serve_frame fs w r w' :
  serve fs w = (r, w') ->
  pw_heap w' = pw_heap w /\
  calls (pw_producer w') = calls (pw_producer w) /\
  capacity (pw_producer w') = capacity (pw_producer w) /\
  forall e, r = Raise e -> is_BufferError e = false.
Proof.
  revert w r w'. induction fs as [|f fs IH]; intros w r w'; simpl.
  { intros [= <- <-]. done. }
  run. destruct (queue (pw_producer w)) as [|[m cb] q] eqn:Hq.
  { intros [= <- <-]. done. }
  destruct cb as [|a]; simpl.
  - match goal with
    | |- context [delivery_report ?a ?b ?c] =>
        destruct (delivery_report_prints a b c) as [line ->]
    end.
    destruct (serve fs _) as [[n|e|] w1] eqn:Hs; intros [= <- <-];
      apply IH in Hs as (-> & -> & -> & He);
      repeat split; try done; intros e' [= <-]; by apply He.
  - intros [= <- <-]. repeat split; try done. by intros e [= <-].
Qed.

Lemma Producer_produce_full tp b cb w :
  queue_full (pw_producer w) ->
  Producer_produce tp (VBytes b) cb w =
    (Raise (BufferError "Local: Queue full"),
     set_producer (log_call (Produce tp (VBytes b) cb) (pw_producer w)) w).
Proof.
  unfold queue_full, Producer_produce. intros Hfull. run.
  by rewrite bool_decide_true.
Qed.

Lemma Producer_produce_room tp b cb w :
  ~ queue_full (pw_producer w) ->
  Producer_produce tp (VBytes b) cb w =
    (Ok tt,
     set_producer
       (set_queue (queue (pw_producer w) ++ [(mkMessage tp (-1) b None, cb)])
          (log_call (Produce tp (VBytes b) cb) (pw_producer w))) w).
Proof.
  unfold queue_full, Producer_produce. intros Hroom. run.
  by rewrite bool_decide_false.
Qed.

(** The world a [poll] starts serving from. *)
Lemma Producer_poll_spec timeout w :
  reports_only (pw_producer w) ->
  exists out,
    Producer_poll timeout w =
      (Ok (length (ready (pw_producer w)) `min` length (queue (pw_producer w))),
       served (ready (pw_producer w)) out
         (set_producer
            (set_broker (tail (broker (pw_producer w)))
               (log_call (ProducerPoll timeout) (pw_producer w))) w)) /\
    length out = length (ready (pw_producer w)) `min` length (queue (pw_producer w)).
Proof.
  intros Hw. destruct w as [h lim [c k q b cs rs] o].
  unfold Producer_poll, ready. run.
  destruct b as [|fs later]; simpl.
  { exists []. split; [|done]. unfold served; simpl.
    by rewrite !app_nil_r, drop_0. }
  destruct (serve_spec fs
    (mkPubWorld h lim (mkProducer c k q later (cs ++ [ProducerPoll timeout]) rs) o) Hw)
    as (out & Hrun & Hlen).
  exists out. split; [|done]. exact Hrun.
Qed.

Lemma Producer_poll_frame timeout w r w' :
  Producer_poll timeout w = (r, w') ->
  pw_heap w' = pw_heap w /\
  calls (pw_producer w') = calls (pw_producer w) ++ [ProducerPoll timeout] /\
  capacity (pw_producer w') = capacity (pw_producer w) /\
  forall e, r = Raise e -> is_BufferError e = false.
Proof.
  unfold Producer_poll. run.
  destruct (broker (pw_producer w)) as [|fs later]; simpl.
  { intros [= <- <-]. done. }
  intros Hs. apply serve_frame in Hs as (-> & -> & -> & He). done.
Qed.

Lemma final_fates_length p : length (final_fates p) = length (queue p).
Proof.
  unfold final_fates. rewrite length_take, length_app, length_replicate. lia.
Qed.

(** [flush] serves every message in flight. *)
Lemma Producer_flush_spec w :
  reports_only (pw_producer w) ->
  exists out,
    Producer_flush w =
      (Ok 0,
       served (final_fates (pw_producer w)) out
         (set_producer
            (set_broker
               match drop (length (queue (pw_producer w)))
                       (concat (broker (pw_producer w))) with
               | [] => []
               | rest => [rest]
               end
               (log_call Flush (pw_producer w))) w)) /\
    length out = length (queue (pw_producer w)).
Proof.
  intros Hw. destruct w as [h lim [c k q b cs rs] o].
  unfold Producer_flush. run.
  match goal with
  | |- context [serve ?fs ?w1] =>
      destruct (serve_spec fs w1 Hw) as (out & Hrun & Hlen)
  end.
  exists out. rewrite Hrun. split; [done|].
  rewrite Hlen. simpl. rewrite length_take, length_app, length_replicate. lia.
Qed.

End ProducerRuns.

(** ** Publisher *)

Section PublisherRuns.

Implicit Types (w : pub_world) (self : Publisher.t).

Lemma deepcopy_run doc w d :
  snapshot (pw_limit w) (pw_heap w) doc = Some d ->
  exists copy h',
    deepcopy_rec (pw_limit w) doc (pw_heap w) = Some (copy, h') /\
    deepcopy doc w = (Ok copy, set_heap h' w) /\
    pw_heap w ⊆ h' /\
    forall h2, preserves_new (pw_heap w) h' h2 ->
      snapshot (pw_limit w) h2 copy = Some d.
Proof.
  intros Hd.
  destruct (deepcopy_rec_spec _ _ _ _ Hd) as (copy & h' & Hcopy & Hsub & Hind).
  exists copy, h'. unfold deepcopy. by rewrite Hcopy.
Qed.

Lemma call_serializer_run self name doc w d :
  snapshot (pw_limit w) (pw_heap w) doc = Some d ->
  Publisher.call_serializer self name doc w =
    lift (Publisher._serializer self (PyTuple [PyStr name; d])) w.
Proof. intros Hd. unfold Publisher.call_serializer. by rewrite Hd. Qed.

Lemma getattr_delivery_report self w :
  Publisher.getattr self "delivery_report" w =
    (Raise (AttributeError "Publisher" "delivery_report"), w).
Proof. reflexivity. Qed.

(** The [except BufferError] block, lines 56-61: whatever the wait does,
    the block ends in an exception and submits nothing. *)
Lemma handler_frame self doc w r w' :
  (Producer_poll 10 ;;
   callback <- Publisher.getattr self "delivery_report" ;;
   Producer_produce "bluesky-event" doc callback) w = (r, w') ->
  r <> Ok tt /\
  pw_heap w' = pw_heap w /\
  calls (pw_producer w') = calls (pw_producer w) ++ [ProducerPoll 10].
Proof.
  unfold bind at 1.
  destruct (Producer_poll 10 w) as [[k|e|] w1] eqn:Hpoll;
    apply Producer_poll_frame in Hpoll as (Hh & Hc & _ & _).
  - unfold bind. rewrite getattr_delivery_report. by intros [= <- <-].
  - by intros [= <- <-].
  - by intros [= <- <-].
Qed.

(** C10: when [publish] gets as far as its first [produce] (the document
    is copied, the serializer returns) and that [produce] raises
    [BufferError] (the local queue is full), the call waits in
    [poll(10)] and then raises [AttributeError] on
    [self.delivery_report], which a [Publisher] does not have.  The
    handle has seen the failed submission and the wait, and no other
    call: nothing was submitted again, and the queue only lost the
    messages whose reports were served during the wait. *)
Theorem full_queue_publish_raises_AttributeError self name doc w d wire :
  snapshot (pw_limit w) (pw_heap w) doc = Some d ->
  Publisher._serializer self (PyTuple [PyStr name; d]) = Returns wire ->
  queue_full (pw_producer w) ->
  reports_only (pw_producer w) ->
  exists w',
    Publisher.__call__ self name doc w =
      (Raise (AttributeError "Publisher" "delivery_report"), w') /\
    calls (pw_producer w') =
      calls (pw_producer w) ++
        [Produce "bluesky-event" (VBytes wire) delivery_report_function;
         ProducerPoll 10] /\
    queue (pw_producer w') =
      drop (length (ready (pw_producer w))) (queue (pw_producer w)).
Proof.
  intros Hd Hwire Hfull Hcb.
  destruct (deepcopy_run _ _ _ Hd) as (copy & h' & _ & Hcopy & _ & Hind).
  unfold Publisher.__call__, bind at 1. rewrite Hcopy.
  unfold try_except, bind at 1.
  rewrite (call_serializer_run _ _ _ _ d) by apply Hind, preserves_new_refl.
  rewrite Hwire. cbn [lift].
  unfold bind at 1. rewrite Producer_produce_full by exact Hfull.
  cbn [is_BufferError].
  set (w1 := set_producer _ _).
  destruct (Producer_poll_spec 10 w1 Hcb) as (out & Hpoll & _).
  unfold bind at 1. rewrite Hpoll.
  unfold bind. rewrite getattr_delivery_report.
  eexists. split; [reflexivity|]. simpl.
  by rewrite <- app_assoc.
Qed.

End PublisherRuns.

(** ** What is sent does not live on the heap *)

Section HeapIrrelevance.

Implicit Types (w : pub_world) (self : Publisher.t).

Lemma heap_blind_bind {A B} (c : M pub_world A) (k : A -> M pub_world B) :
  heap_blind c -> (forall a, heap_blind (k a)) -> heap_blind (bind c k).
Proof.
  intros Hc Hk h2 w. unfold bind. rewrite Hc.
  destruct (c w) as [[a|e|] w1]; simpl; try done. apply Hk.
Qed.

Lemma heap_blind_on_producer f : heap_blind (on_producer f).
Proof. by intros h2 w. Qed.

Lemma heap_blind_ret {A} (a : A) : heap_blind (ret a).
Proof. by intros h2 w. Qed.

Lemma heap_blind_invoke cb err msg : heap_blind (invoke cb err msg).
Proof. intros h2 w. destruct cb; [destruct err|]; reflexivity. Qed.

Lemma heap_blind_get {A} (k : pub_world -> M pub_world A) :
  (forall h2 w, k (set_heap h2 w) (set_heap h2 w) = ((k w w).1, set_heap h2 (k w w).2)) ->
  heap_blind (w <- get ;; k w).
Proof. intros Hk h2 w. apply Hk. Qed.

Lemma heap_blind_serve fs : heap_blind (serve fs).
Proof.
  induction fs as [|f fs IH]; [apply heap_blind_ret|].
  apply heap_blind_get. intros h2 w. simpl.
  destruct (queue (pw_producer w)) as [|[m cb] q]; [done|].
  revert h2 w. fold (heap_blind (A := nat)).
  repeat (apply heap_blind_bind; [|intros ?]);
    auto using heap_blind_on_producer, heap_blind_invoke, heap_blind_ret.
Qed.

Lemma heap_blind_flush : heap_blind Producer_flush.
Proof.
  unfold Producer_flush.
  apply heap_blind_bind; [apply heap_blind_on_producer|intros _].
  apply heap_blind_get. intros h2 w. simpl.
  match goal with
  | |- ?c (set_heap h2 w) = _ => assert (Hc : heap_blind c); [|apply Hc]
  end.
  repeat (apply heap_blind_bind; [|intros ?]);
    auto using heap_blind_on_producer, heap_blind_serve, heap_blind_ret.
Qed.

Lemma heap_blind_close self : heap_blind (Publisher.close self).
Proof.
  unfold Publisher.close.
  apply heap_blind_bind; [apply heap_blind_flush|intros _; apply heap_blind_ret].
Qed.

End HeapIrrelevance.

Section PublisherClose.

Implicit Types (w : pub_world) (self : Publisher.t).

Lemma submissions_app cs cs' :
  submissions (cs ++ cs') = submissions cs ++ submissions cs'.
Proof. apply List.filter_app. Qed.

Lemma close_spec self w :
  reports_only (pw_producer w) ->
  exists out,
    Publisher.close self w =
      (Ok tt,
       served (final_fates (pw_producer w)) out
         (set_producer
            (set_broker
               match drop (length (queue (pw_producer w)))
                       (concat (broker (pw_producer w))) with
               | [] => []
               | rest => [rest]
               end
               (log_call Flush (pw_producer w))) w)) /\
    length out = length (queue (pw_producer w)).
Proof.
  intros Hw. destruct (Producer_flush_spec w Hw) as (out & Hrun & Hlen).
  exists out. unfold Publisher.close, bind. by rewrite Hrun.
Qed.

(** C8: [close] returns once every message in flight has had its
    delivery report (delivered or failed), leaving the queue empty: each
    message of the queue is reported once, in order, and one line is
    printed for each.  A second [close] returns normally as well and
    changes nothing but the history of the handle, to which it adds its
    [flush]: no report is served, nothing is printed, and neither call
    submits a message. *)
Theorem close_is_idempotent self w :
  reports_only (pw_producer w) ->
  exists out w1,
    Publisher.close self w = (Ok tt, w1) /\
    queue (pw_producer w1) = [] /\
    reported (pw_producer w1) =
      reported (pw_producer w) ++
        zip_with report (final_fates (pw_producer w)) (queue (pw_producer w)).*1 /\
    pw_stdout w1 = pw_stdout w ++ out /\
    length out = length (queue (pw_producer w)) /\
    submissions (calls (pw_producer w1)) = submissions (calls (pw_producer w)) /\
    Publisher.close self w1 =
      (Ok tt, set_producer (log_call Flush (pw_producer w1)) w1).
Proof.
  intros Hw. destruct w as [h lim [c k q b cs rs] o].
  destruct (close_spec self _ Hw) as (out & Hrun & Hlen).
  simpl in Hrun, Hlen.
  exists out. eexists. split; [exact Hrun|].
  unfold served; simpl.
  assert (Hempty : drop (length (final_fates (mkProducer c k q b cs rs))) q = []).
  { apply drop_ge. by rewrite final_fates_length. }
  rewrite Hempty.
  repeat split; try done.
  { rewrite submissions_app. simpl. by rewrite app_nil_r. }
  match goal with
  | |- Publisher.close self ?w1 = _ =>
      destruct (close_spec self w1) as (out' & Hrun' & Hlen');
        [by apply Forall_nil|]
  end.
  rewrite Hrun'. simpl in Hlen'. apply nil_length_inv in Hlen' as ->.
  unfold final_fates; simpl. unfold served; simpl.
  rewrite !app_nil_r, drop_0.
  unfold set_producer, set_broker, log_call; simpl.
  destruct (drop (length q) (concat b)) as [|x rest]; simpl;
    by rewrite ?app_nil_r.
Qed.

End PublisherClose.

(** ** Every world a publisher reaches has only [delivery_report] callbacks *)

Section PublisherInvariant.

Implicit Types (w : pub_world) (self : Publisher.t).

Lemma init_reports_only addr serializer cap script h limit out :
  reports_only (pw_producer (Publisher.__init__ addr serializer cap script h limit out).2).
Proof. apply Forall_nil. done. Qed.

Lemma served_reports_only fs out w :
  reports_only (pw_producer w) -> reports_only (pw_producer (served fs out w)).
Proof. apply Forall_drop. Qed.

Lemma call_reports_only self name doc w r w' :
  reports_only (pw_producer w) ->
  Publisher.__call__ self name doc w = (r, w') ->
  reports_only (pw_producer w').
Proof.
  intros Hw. unfold Publisher.__call__, bind at 1.
  destruct (deepcopy doc w) as [[copy|e|] w1] eqn:Hcopy;
    (assert (Hw1 : reports_only (pw_producer w1));
     [unfold deepcopy in Hcopy;
      destruct (deepcopy_rec _ _ _) as [[? ?]|]; by injection Hcopy as _ <-|]);
    [|by intros [= _ <-]..].
  clear Hcopy Hw. revert Hw1. generalize w1. clear w1 w. intros w Hw.
  assert (Hhandler : forall w0 r0,
    reports_only (pw_producer w0) ->
    (Producer_poll 10 ;;
     callback <- Publisher.getattr self "delivery_report" ;;
     Producer_produce "bluesky-event" copy callback) w0 = (r0, w') ->
    reports_only (pw_producer w')).
  { intros w0 r0 Hw0. unfold bind at 1.
    destruct (Producer_poll_spec 10 w0 Hw0) as (out & -> & _).
    unfold bind. rewrite getattr_delivery_report. intros [= _ <-].
    by apply served_reports_only. }
  unfold try_except, bind at 1, Publisher.call_serializer.
  destruct (snapshot _ _ _) as [d|]; [|by intros [= _ <-]].
  destruct (Publisher._serializer self _) as [wire|e]; cbn [lift].
  - unfold bind at 1.
    destruct (decide (queue_full (pw_producer w))) as [Hfull|Hroom].
    + rewrite Producer_produce_full by exact Hfull. cbn [is_BufferError].
      by apply Hhandler.
    + rewrite Producer_produce_room by exact Hroom.
      assert (Hw1 : reports_only
        (set_queue
           (queue (pw_producer w) ++
            [(mkMessage "bluesky-event" (-1) wire None, delivery_report_function)])
           (log_call (Produce "bluesky-event" (VBytes wire) delivery_report_function)
              (pw_producer w)))).
      { apply Forall_app. split; [exact Hw|]. by apply Forall_singleton. }
      unfold bind at 1.
      match goal with
      | |- context [Producer_poll 0 ?w1] =>
          destruct (Producer_poll_spec 0 w1 Hw1) as (out & Hpoll & _)
      end.
      rewrite Hpoll. intros [= _ <-].
      by apply served_reports_only.
  - destruct (is_BufferError e); [by apply Hhandler|by intros [= _ <-]].
Qed.

Lemma close_reports_only self w r w' :
  reports_only (pw_producer w) ->
  Publisher.close self w = (r, w') ->
  reports_only (pw_producer w').
Proof.
  intros Hw. destruct (close_spec self w Hw) as (out & -> & _).
  intros [= _ <-]. by apply served_reports_only.
Qed.

End PublisherInvariant.

(** ** The scenario on a full queue *)

Section PublisherScenario.

Import Scenario.

(** The theorem of C10 on the scenario: the stop document on the queue
    the start document filled. *)
Lemma full_queue_publish_raises_AttributeError_witness :
  exists w',
    Publisher.__call__ publisher "stop" (VRef 2%positive) after_start =
      (Raise (AttributeError "Publisher" "delivery_report"), w') /\
    calls (pw_producer w') =
      calls (pw_producer after_start) ++
        [Produce "bluesky-event" (VBytes wire_stop) delivery_report_function;
         ProducerPoll 10] /\
    queue (pw_producer w') =
      drop (length (ready (pw_producer after_start))) (queue (pw_producer after_start)).
Proof.
  apply (full_queue_publish_raises_AttributeError
           publisher "stop" (VRef 2%positive) after_start stop_doc wire_stop).
  - reflexivity.
  - reflexivity.
  - vm_compute. lia.
  - vm_compute. repeat constructor.
Defined.

(** The theorem of C8 on the world the start document was published
    in, with one message in flight. *)
Lemma close_is_idempotent_witness :
  exists out w1,
    Publisher.close publisher after_start = (Ok tt, w1) /\
    queue (pw_producer w1) = [] /\
    reported (pw_producer w1) =
      reported (pw_producer after_start) ++
        zip_with report (final_fates (pw_producer after_start))
          (queue (pw_producer after_start)).*1 /\
    pw_stdout w1 = pw_stdout after_start ++ out /\
    length out = length (queue (pw_producer after_start)) /\
    submissions (calls (pw_producer w1)) = submissions (calls (pw_producer after_start)) /\
    Publisher.close publisher w1 =
      (Ok tt, set_producer (log_call Flush (pw_producer w1)) w1).
Proof.
  apply (close_is_idempotent publisher after_start).
  vm_compute. repeat constructor.
Defined.

(** C1, on the code: the queue is full when [publish("stop", ...)] is
    called and the one message in flight is acknowledged during the
    wait, so that a second [produce] would be accepted.  The call makes
    the first submission and the wait of 10 seconds, makes no second
    submission, and raises [AttributeError]; the queue is empty when it
    does. *)
Lemma full_queue_publish_does_not_retry :
  queue_full (pw_producer after_start) /\
  after_stop.1 = Raise (AttributeError "Publisher" "delivery_report") /\
  calls (pw_producer after_stop.2) =
    calls (pw_producer after_start) ++
      [Produce "bluesky-event" (VBytes wire_stop) delivery_report_function;
       ProducerPoll 10] /\
  capacity (pw_producer after_stop.2) = 1%nat /\
  queue (pw_producer after_stop.2) = [].
Proof. vm_compute. repeat split. lia. Qed.

(** What becomes of the stop document: on the same call the handle has
    been given its wire message once, in the submission that raised
    [BufferError], and never again; when the publisher is closed
    afterwards, the only message the broker has reported on is the start
    document. *)
Lemma full_queue_publish_loses_document :
  submissions (calls (pw_producer after_stop.2)) =
    [Produce "bluesky-event" (VBytes wire_start) delivery_report_function;
     Produce "bluesky-event" (VBytes wire_stop) delivery_report_function] /\
  (Publisher.close publisher after_stop.2).1 = Ok tt /\
  map (fun r => value r.2)
      (reported (pw_producer (Publisher.close publisher after_stop.2).2)) =
    [wire_start] /\
  queue (pw_producer (Publisher.close publisher after_stop.2).2) = [].
Proof. vm_compute. repeat split. Qed.

End PublisherScenario.

(** ** The receive loop *)

Section DispatcherRuns.

Implicit Types (w : disp_world) (self : RemoteDispatcher.t).

Lemma same_instance_refl w : same_instance w w.
Proof. by split. Qed.

Lemma same_instance_trans w1 w2 w3 :
  same_instance w1 w2 -> same_instance w2 w3 -> same_instance w1 w3.
Proof. intros [H1 H2] [H3 H4]. split; congruence. Qed.

Lemma advanced_0 self w : advanced self 0 [] [] w = w.
Proof.
  destruct w as [[c s o cs] cl out ps ds]. unfold advanced; simpl.
  by rewrite !app_nil_r.
Qed.

Lemma advanced_advanced self n m out out' nds nds' w :
  advanced self n out nds (advanced self m out' nds' w) =
    advanced self (m + n) (out' ++ out) (nds' ++ nds) w.
Proof.
  unfold advanced; simpl.
  by rewrite flat_map_app, replicate_add, <- !app_assoc.
Qed.

(** The fan-out calls every subscriber, in registration order; when
    none of them raises, it returns. *)
Lemma fan_out_accepted subs i name doc w :
  Forall (fun f : subscriber => f name doc = Returns tt) subs ->
  Dispatcher.fan_out subs i name doc w =
    (Ok tt,
     mkDispWorld (dw_consumer w) (dw_closed w) (dw_stdout w) (dw_processed w)
       (dw_delivered w ++ imap (fun j _ => (i + j, name, doc)) subs)).
Proof.
  intros Hsubs. revert i w.
  induction Hsubs as [|f subs Hf _ IH]; intros i w; simpl.
  { run_disp. destruct w; simpl. by rewrite app_nil_r. }
  run_disp. rewrite Hf. rewrite IH. simpl.
  rewrite <- app_assoc. simpl. rewrite Nat.add_0_r.
  do 4 f_equal. apply imap_ext. intros j x _. simpl. do 2 f_equal. lia.
Qed.

Lemma fan_out_frame subs i name doc w r w' :
  Dispatcher.fan_out subs i name doc w = (r, w') ->
  dw_consumer w' = dw_consumer w /\
  dw_closed w' = dw_closed w /\
  dw_processed w' = dw_processed w.
Proof.
  revert i w. induction subs as [|f subs IH]; intros i w; simpl.
  { by intros [= _ <-]. }
  run_disp. destruct (f name doc) as [[]|e].
  - intros Hrest. by apply IH in Hrest as (-> & -> & ->).
  - by intros [= _ <-].
Qed.

Lemma fan_out_not_pending subs i name doc w w' :
  Dispatcher.fan_out subs i name doc w <> (Pending, w').
Proof.
  revert i w. induction subs as [|f subs IH]; intros i w; simpl; [done|].
  run_disp. destruct (f name doc) as [[]|e]; [apply IH|done].
Qed.

(** One turn of the loop never touches the flag or the state of the
    handle, whatever it does. *)
Lemma poll_body_frame self r w o w' :
  RemoteDispatcher._poll_body self r w = (o, w') -> same_instance w w'.
Proof.
  unfold RemoteDispatcher._poll_body, Consumer_poll. run_disp.
  destruct (is_open (dw_consumer w)) eqn:Hopen; [|by intros [= _ <-]].
  destruct r as [|msg|e]; [by intros [= _ <-]| |by intros [= _ <-]].
  destruct (error msg) as [err|]; [by intros [= _ <-]|].
  destruct (RemoteDispatcher._deserializer self (value msg)) as [pair|e];
    [|by intros [= _ <-]].
  destruct (unpack2 pair) as [[key doc]|e]; [|by intros [= _ <-]].
  simpl.
  destruct (DocumentNames.getitem key) as [member|e]; [|by intros [= _ <-]].
  unfold RemoteDispatcher.process, Dispatcher.process. run_disp.
  intros Hfan. apply fan_out_frame in Hfan as (H1 & H2 & _).
  split; [done|by rewrite H1].
Qed.

(** A turn of the loop is over once its [poll] has been answered: it
    ends normally or raises. *)
Lemma poll_body_not_pending self r w w' :
  RemoteDispatcher._poll_body self r w <> (Pending, w').
Proof.
  unfold RemoteDispatcher._poll_body, Consumer_poll. run_disp.
  destruct (is_open (dw_consumer w)); [|done].
  destruct r as [|msg|e]; [done| |done].
  destruct (error msg) as [err|]; [done|].
  destruct (RemoteDispatcher._deserializer self (value msg)) as [pair|e]; [|done].
  destruct (unpack2 pair) as [[key doc]|e]; [|done].
  simpl.
  destruct (DocumentNames.getitem key) as [member|e]; [|done].
  unfold RemoteDispatcher.process, Dispatcher.process. run_disp.
  apply fan_out_not_pending.
Qed.

Lemma poll_step self r later w w1 :
  RemoteDispatcher._poll_body self r w = (Ok tt, w1) ->
  RemoteDispatcher._poll self (r :: later) w = RemoteDispatcher._poll self later w1.
Proof. intros Hbody. simpl. unfold bind. by rewrite Hbody. Qed.

(** The loop has no normal exit, and leaves the lifecycle alone. *)
Lemma poll_frame self responses w o w' :
  RemoteDispatcher._poll self responses w = (o, w') ->
  o <> Ok tt /\ same_instance w w'.
Proof.
  revert w. induction responses as [|r later IH]; intros w; simpl.
  { intros [= <- <-]. split; [done|apply same_instance_refl]. }
  unfold bind.
  destruct (RemoteDispatcher._poll_body self r w) as [[[]|e|] w1] eqn:Hbody;
    apply poll_body_frame in Hbody.
  - intros Hrest. apply IH in Hrest as [Ho Hsame].
    split; [done|by apply same_instance_trans with w1].
  - by intros [= <- <-].
  - by intros [= <- <-].
Qed.

(** Responses are consumed in order: the loop on [seen ++ later] is the
    loop on [later] from wherever it is blocked after [seen]. *)
Lemma poll_app self seen later w w1 :
  RemoteDispatcher._poll self seen w = (Pending, w1) ->
  RemoteDispatcher._poll self (seen ++ later) w = RemoteDispatcher._poll self later w1.
Proof.
  revert w. induction seen as [|r seen IH]; intros w; simpl.
  { by intros [= <-]. }
  unfold bind.
  destruct (RemoteDispatcher._poll_body self r w) as [[[]|e|] w2] eqn:Hbody;
    [apply IH|intros ?; discriminate|].
  by apply poll_body_not_pending in Hbody.
Qed.

(** A timeout or a broker error: the turn ends normally, nothing is
    dispatched. *)
Lemma poll_body_skipped self r w :
  is_open (dw_consumer w) = true ->
  skipped r = true ->
  exists out,
    RemoteDispatcher._poll_body self r w = (Ok tt, advanced self 1 out [] w).
Proof.
  intros Hopen Hr. destruct w as [[c s o cs] cl out ps ds]. simpl in Hopen. subst o.
  unfold RemoteDispatcher._poll_body, Consumer_poll, advanced. run_disp.
  destruct r as [|msg|e]; simpl in Hr; [| |done].
  - exists []. by rewrite !app_nil_r.
  - apply bool_decide_eq_true in Hr as [err Herr]. rewrite Herr.
    eexists [_]. by rewrite !app_nil_r.
Qed.

(** A valid message: the turn ends normally and the document it
    carries has gone through the fan-out once. *)
Lemma poll_body_valid self msg nd w :
  is_open (dw_consumer w) = true ->
  valid self msg nd ->
  exists out,
    RemoteDispatcher._poll_body self (Received msg) w =
      (Ok tt, advanced self 1 out [nd] w).
Proof.
  intros Hopen ((Herr & Hdec) & Hsubs).
  destruct w as [[c s o cs] cl out ps ds]. simpl in Hopen. subst o.
  unfold decoded, and_then in Hdec.
  destruct (RemoteDispatcher._deserializer self (value msg)) as [pair|e] eqn:Hpair;
    [|done].
  destruct (unpack2 pair) as [[key doc]|e] eqn:Hunpack; [|done].
  simpl in Hdec.
  destruct (DocumentNames.getitem key) as [member|e] eqn:Hkey; [|done].
  injection Hdec as <-.
  unfold RemoteDispatcher._poll_body, Consumer_poll, advanced. run_disp.
  rewrite Herr, Hpair, Hunpack. simpl. rewrite Hkey.
  unfold RemoteDispatcher.process, Dispatcher.process. run_disp.
  rewrite fan_out_accepted by exact Hsubs. simpl.
  eexists [_; _]. unfold fanned_out. simpl.
  by rewrite !app_nil_r, <- app_assoc.
Qed.

(** A message that carries a document: the turn polls once and calls
    [process] once, with that document; it ends normally or, when a
    subscriber raises, with its exception. *)
Lemma poll_body_decodes self msg nd w :
  is_open (dw_consumer w) = true ->
  decodes self msg nd ->
  exists o w1,
    RemoteDispatcher._poll_body self (Received msg) w = (o, w1) /\
    o <> Pending /\
    is_open (dw_consumer w1) = true /\
    consumer_calls (dw_consumer w1) = consumer_calls (dw_consumer w) ++ [ConsumerPoll 1] /\
    dw_processed w1 = dw_processed w ++ [nd].
Proof.
  intros Hopen (Herr & Hdec).
  unfold decoded, and_then in Hdec.
  destruct (RemoteDispatcher._deserializer self (value msg)) as [pair|e] eqn:Hpair;
    [|done].
  destruct (unpack2 pair) as [[key doc]|e] eqn:Hunpack; [|done].
  simpl in Hdec.
  destruct (DocumentNames.getitem key) as [member|e] eqn:Hkey; [|done].
  injection Hdec as <-.
  unfold RemoteDispatcher._poll_body, Consumer_poll. run_disp.
  rewrite Hopen, Herr, Hpair, Hunpack. simpl. rewrite Hkey.
  unfold RemoteDispatcher.process, Dispatcher.process. run_disp.
  match goal with
  | |- context [Dispatcher.fan_out ?subs ?i ?n ?d ?w0] =>
      destruct (Dispatcher.fan_out subs i n d w0) as [o w1] eqn:Hfan
  end.
  exists o, w1. split; [done|]. split.
  { intros ->. by apply fan_out_not_pending in Hfan. }
  apply fan_out_frame in Hfan as (-> & _ & ->). by simpl.
Qed.

End DispatcherRuns.

(** ** Lifecycle of a dispatcher *)

Section DispatcherLifecycle.

Implicit Types (w : disp_world) (self : RemoteDispatcher.t).

Lemma stop_open self w :
  is_open (dw_consumer w) = true ->
  RemoteDispatcher.stop self w = (Ok tt, stopped w).
Proof.
  intros Hopen. unfold RemoteDispatcher.stop, Consumer_close, stopped. run_disp.
  by rewrite Hopen.
Qed.

Lemma init_consistent addr group_id deserializer self_repr out :
  (RemoteDispatcher.__init__ addr group_id deserializer self_repr out).2.1 = Ok tt /\
  consistent (RemoteDispatcher.__init__ addr group_id deserializer self_repr out).2.2.
Proof. by split. Qed.

Lemma stop_consistent self w r w' :
  consistent w -> RemoteDispatcher.stop self w = (r, w') -> consistent w'.
Proof.
  unfold consistent, RemoteDispatcher.stop, Consumer_close. run_disp.
  destruct (is_open (dw_consumer w)) eqn:Hopen; intros Hw [= _ <-]; simpl;
    [done|by rewrite Hopen].
Qed.

(** Whatever [start] comes to, the flag and the handle still agree. *)
Lemma start_consistent self responses w r w' :
  consistent w -> RemoteDispatcher.start self responses w = (r, w') -> consistent w'.
Proof.
  intros Hw. unfold RemoteDispatcher.start, try_except. run_disp.
  destruct (dw_closed w) eqn:Hclosed; [by intros [= _ <-]|].
  destruct (RemoteDispatcher._poll self responses w) as [[[]|e|] w1] eqn:Hpoll;
    apply poll_frame in Hpoll as [_ [Hc Ho]];
    (assert (Hw1 : consistent w1) by (unfold consistent in *; congruence)).
  - by intros [= _ <-].
  - destruct (RemoteDispatcher.stop self w1) as [[[]|e'|] w2] eqn:Hstop;
      intros [= _ <-]; by apply (stop_consistent _ _ _ _ Hw1 Hstop).
  - by intros [= _ <-].
Qed.

(** [start] has no normal exit either: it raises, or it is blocked in a
    poll. *)
Lemma start_never_returns self responses w w' :
  RemoteDispatcher.start self responses w <> (Ok tt, w').
Proof.
  unfold RemoteDispatcher.start, try_except. run_disp.
  destruct (dw_closed w); [done|].
  destruct (RemoteDispatcher._poll self responses w) as [[[]|e|] w1] eqn:Hpoll.
  - by apply poll_frame in Hpoll as [? _].
  - unfold RemoteDispatcher.stop, Consumer_close. run_disp.
    by destruct (is_open (dw_consumer w1)).
  - done.
Qed.

(** [start] on a stopped instance: lines 120-123. *)
Lemma start_closed self responses w :
  dw_closed w = true ->
  RemoteDispatcher.start self responses w =
    (Raise (RuntimeError (already_started self)), w).
Proof.
  intros Hclosed. unfold RemoteDispatcher.start. run_disp. by rewrite Hclosed.
Qed.

(** C4: on an instance whose [closed] flag is set, [start] raises the
    [RuntimeError] of lines 121-123 and does nothing else: the world is
    the one it was called in, so the consumer has not been polled and no
    document has reached the fan-out. *)
Theorem start_on_stopped_instance_raises self responses w :
  dw_closed w = true ->
  RemoteDispatcher.start self responses w =
    (Raise (RuntimeError (already_started self)), w).
Proof. apply start_closed. Qed.

(** C3: when [start] is called on an instance that has not been stopped
    and ends with an exception, the exception is the one the receive
    loop raised, and [stop] has run in between: the consumer has been
    closed ([Close] is the last call on the handle) and the flag is
    set. *)
Theorem start_exception_releases_consumer self responses w e w' :
  dw_closed w = false ->
  is_open (dw_consumer w) = true ->
  RemoteDispatcher.start self responses w = (Raise e, w') ->
  exists w1,
    RemoteDispatcher._poll self responses w = (Raise e, w1) /\
    RemoteDispatcher.stop self w1 = (Ok tt, w') /\
    dw_closed w' = true /\
    is_open (dw_consumer w') = false /\
    consumer_calls (dw_consumer w') = consumer_calls (dw_consumer w1) ++ [Close].
Proof.
  intros Hclosed Hopen. unfold RemoteDispatcher.start, try_except. run_disp.
  rewrite Hclosed.
  destruct (RemoteDispatcher._poll self responses w) as [[[]|e1|] w1] eqn:Hpoll;
    [by apply poll_frame in Hpoll as [? _]| |done].
  apply poll_frame in Hpoll as [_ [_ Hopen1]]. rewrite Hopen in Hopen1.
  rewrite (stop_open _ _ Hopen1). intros [= <- <-].
  exists w1. by rewrite (stop_open _ _ Hopen1).
Qed.

(** The loop after a payload the deserializer raises on. *)
Lemma poll_body_poisoned self msg e w :
  is_open (dw_consumer w) = true ->
  error msg = None ->
  RemoteDispatcher._deserializer self (value msg) = Raises e ->
  exists out,
    RemoteDispatcher._poll_body self (Received msg) w =
      (Raise e, advanced self 1 out [] w).
Proof.
  intros Hopen Herr Hdes. destruct w as [[c s o cs] cl out ps ds].
  simpl in Hopen. subst o.
  unfold RemoteDispatcher._poll_body, Consumer_poll, advanced. run_disp.
  rewrite Herr, Hdes. simpl. eexists [_]. by rewrite !app_nil_r.
Qed.

(** C5: a poll that times out, or returns a message carrying an error of
    the broker, ends its turn of the loop normally: nothing is handed to
    the fan-out, and the loop goes on with the next answer.  If that is
    a valid message, its document has gone through the fan-out once the
    next turn is over, and the loop goes on from there. *)
Theorem skipped_poll_keeps_loop_running self r msg nd later w :
  is_open (dw_consumer w) = true ->
  skipped r = true ->
  valid self msg nd ->
  exists out1 out2,
    RemoteDispatcher._poll_body self r w = (Ok tt, advanced self 1 out1 [] w) /\
    RemoteDispatcher._poll self (r :: later) w =
      RemoteDispatcher._poll self later (advanced self 1 out1 [] w) /\
    RemoteDispatcher._poll self (r :: Received msg :: later) w =
      RemoteDispatcher._poll self later (advanced self 2 (out1 ++ out2) [nd] w).
Proof.
  intros Hopen Hr Hmsg.
  destruct (poll_body_skipped self r w Hopen Hr) as (out1 & Hskip).
  destruct (poll_body_valid self msg nd (advanced self 1 out1 [] w) Hopen Hmsg)
    as (out2 & Hvalid).
  exists out1, out2. split; [exact Hskip|]. split.
  - by apply poll_step.
  - rewrite (poll_step _ _ _ _ _ Hskip), (poll_step _ _ _ _ _ Hvalid).
    by rewrite advanced_advanced.
Qed.

(** On valid messages the loop keeps going: it gets through all of
    them, and is then where it would be on the answers that follow. *)
Lemma valid_messages_advance_loop self msgs nds later w :
  is_open (dw_consumer w) = true ->
  Forall2 (valid self) msgs nds ->
  exists out,
    RemoteDispatcher._poll self (map Received msgs ++ later) w =
      RemoteDispatcher._poll self later (advanced self (length msgs) out nds w) /\
    RemoteDispatcher._poll self (map Received msgs) w =
      (Pending, advanced self (length msgs) out nds w) /\
    dw_processed (advanced self (length msgs) out nds w) = dw_processed w ++ nds /\
    dw_delivered (advanced self (length msgs) out nds w) =
      dw_delivered w ++ flat_map (fanned_out self) nds.
Proof.
  intros Hopen Hvalid. revert w Hopen.
  induction Hvalid as [|msg nd msgs nds Hmsg _ IH]; intros w Hopen.
  { exists []. simpl. by rewrite advanced_0, !app_nil_r. }
  destruct (poll_body_valid self msg nd w Hopen Hmsg) as (out1 & Hturn).
  destruct (IH (advanced self 1 out1 [nd] w) Hopen) as (out & Hrest & Hblocked & _).
  exists (out1 ++ out). rewrite advanced_advanced in Hrest, Hblocked.
  repeat split; try done.
  - simpl map. simpl app at 1. by rewrite (poll_step _ _ _ _ _ Hturn).
  - simpl map. by rewrite (poll_step _ _ _ _ _ Hturn).
Qed.

(** C6: the loop hands the documents of the messages it polls to the
    fan-out in the order the messages were received, one call of
    [process] for each.  Whatever the loop has come to on a sequence of
    messages that carry documents, it has polled some number [k] of
    them and called [process] on the documents of the first [k], in
    order, and on nothing else.  When no subscriber raises on any of the
    documents, the loop has polled them all, every subscriber has been
    called once for each document, the calls for a document all made
    before those for the next, and the loop is blocked in its next
    poll. *)
Theorem valid_messages_dispatched_in_order self msgs nds w o w' :
  is_open (dw_consumer w) = true ->
  Forall2 (decodes self) msgs nds ->
  RemoteDispatcher._poll self (map Received msgs) w = (o, w') ->
  exists k,
    consumer_calls (dw_consumer w') =
      consumer_calls (dw_consumer w) ++ replicate k (ConsumerPoll 1) /\
    dw_processed w' = dw_processed w ++ take k nds /\
    (Forall (accepted self) nds ->
       o = Pending /\ k = length msgs /\
       dw_delivered w' = dw_delivered w ++ flat_map (fanned_out self) nds).
Proof.
  intros Hopen Hmsgs. revert w Hopen.
  induction Hmsgs as [|msg nd msgs nds Hmsg _ IH]; intros w Hopen; simpl.
  { intros [= <- <-]. exists 0. simpl. by rewrite !app_nil_r. }
  unfold bind.
  destruct (poll_body_decodes self msg nd w Hopen Hmsg)
    as (o1 & w1 & Hturn & Ho1 & Hopen1 & Hcalls & Hproc).
  rewrite Hturn. destruct o1 as [[]|e|]; [| |done].
  - intros Hrest. destruct (IH w1 Hopen1 Hrest) as (k & Hc & Hp & Hall).
    exists (S k). rewrite Hc, Hp, Hcalls, Hproc, <- !app_assoc.
    split; [done|]. split; [done|].
    intros Hacc. apply Forall_cons in Hacc as [Hnd Hnds].
    destruct (Hall Hnds) as (-> & -> & Hdel). split; [done|]. split; [done|].
    destruct (poll_body_valid self msg nd w Hopen (conj Hmsg Hnd)) as (out & Hok).
    rewrite Hturn in Hok. injection Hok as ->.
    rewrite Hdel. unfold advanced; simpl. by rewrite app_nil_r, <- app_assoc.
  - intros [= <- <-]. exists 1. rewrite Hcalls, Hproc. simpl. rewrite take_0.
    split; [done|]. split; [done|].
    intros Hacc. apply Forall_cons in Hacc as [Hnd _].
    destruct (poll_body_valid self msg nd w Hopen (conj Hmsg Hnd)) as (out & Hok).
    by rewrite Hturn in Hok.
Qed.
(** C9: a message whose payload the deserializer raises on ends the
    instance.  If the loop got through [seen] and the next message is
    such a message, [start] raises the exception of the deserializer
    after closing the consumer and setting the flag; nothing has been
    handed to the fan-out since the loop got through [seen], the
    answers after the message are never asked for, and whatever the
    broker answers to it, a later [start] raises the [RuntimeError] of
    the stopped instance and leaves the world as it is. *)
Theorem poisoned_message_ends_instance self seen msg later e w w1 :
  dw_closed w = false ->
  is_open (dw_consumer w) = true ->
  RemoteDispatcher._poll self seen w = (Pending, w1) ->
  error msg = None ->
  RemoteDispatcher._deserializer self (value msg) = Raises e ->
  exists out,
    RemoteDispatcher.start self (seen ++ Received msg :: later) w =
      (Raise e, stopped (advanced self 1 out [] w1)) /\
    dw_processed (stopped (advanced self 1 out [] w1)) = dw_processed w1 /\
    dw_delivered (stopped (advanced self 1 out [] w1)) = dw_delivered w1 /\
    forall responses,
      RemoteDispatcher.start self responses (stopped (advanced self 1 out [] w1)) =
        (Raise (RuntimeError (already_started self)),
         stopped (advanced self 1 out [] w1)).
Proof.
  intros Hclosed Hopen Hseen Herr Hdes.
  pose proof Hseen as Hframe. apply poll_frame in Hframe as [_ [_ Hopen1]].
  rewrite Hopen in Hopen1.
  destruct (poll_body_poisoned self msg e w1 Hopen1 Herr Hdes) as (out & Hturn).
  exists out. split; [|split; [|split]].
  - unfold RemoteDispatcher.start, try_except. run_disp. rewrite Hclosed.
    rewrite (poll_app _ _ _ _ _ Hseen). simpl. unfold bind at 1. rewrite Hturn.
    by rewrite stop_open.
  - unfold stopped, advanced; simpl. by rewrite app_nil_r.
  - unfold stopped, advanced; simpl. by rewrite app_nil_r.
  - intros responses. by apply start_closed.
Qed.

End DispatcherLifecycle.

(** ** The scenario on the dispatching side *)

Section DispatcherScenario.

Import Scenario.

(** The two wire messages of the scenario are valid for the dispatcher
    of the scenario. *)
Lemma scenario_valid_start :
  valid dispatcher (message wire_start) (DocumentNames.start, start_doc).
Proof. split; [split; [reflexivity|vm_compute; reflexivity]|repeat constructor]. Qed.

Lemma scenario_valid_stop :
  valid dispatcher (message wire_stop) (DocumentNames.stop, stop_doc).
Proof. split; [split; [reflexivity|vm_compute; reflexivity]|repeat constructor]. Qed.

(** The theorem of C4 on a dispatcher that has been stopped. *)
Lemma start_on_stopped_instance_raises_witness :
  RemoteDispatcher.start dispatcher [Received (message wire_start)]
    (stopped fresh_world) =
    (Raise (RuntimeError (already_started dispatcher)), stopped fresh_world).
Proof.
  apply (start_on_stopped_instance_raises dispatcher
           [Received (message wire_start)] (stopped fresh_world)).
  reflexivity.
Defined.

(** The theorem of C3 on a loop that is interrupted at its third
    poll. *)
Lemma start_exception_releases_consumer_witness :
  exists w1,
    RemoteDispatcher._poll dispatcher
      [TimedOut; Received (message wire_start); Interrupted KeyboardInterrupt]
      fresh_world = (Raise KeyboardInterrupt, w1) /\
    RemoteDispatcher.stop dispatcher w1 =
      (Ok tt,
       (RemoteDispatcher.start dispatcher
          [TimedOut; Received (message wire_start); Interrupted KeyboardInterrupt]
          fresh_world).2) /\
    dw_closed
      (RemoteDispatcher.start dispatcher
         [TimedOut; Received (message wire_start); Interrupted KeyboardInterrupt]
         fresh_world).2 = true /\
    is_open (dw_consumer
      (RemoteDispatcher.start dispatcher
         [TimedOut; Received (message wire_start); Interrupted KeyboardInterrupt]
         fresh_world).2) = false /\
    consumer_calls (dw_consumer
      (RemoteDispatcher.start dispatcher
         [TimedOut; Received (message wire_start); Interrupted KeyboardInterrupt]
         fresh_world).2) = consumer_calls (dw_consumer w1) ++ [Close].
Proof.
  apply (start_exception_releases_consumer dispatcher
           [TimedOut; Received (message wire_start); Interrupted KeyboardInterrupt]
           fresh_world KeyboardInterrupt).
  - reflexivity.
  - reflexivity.
  - vm_compute. reflexivity.
Defined.

(** The theorem of C5 on a broker error followed by the start
    document. *)
Lemma skipped_poll_keeps_loop_running_witness :
  exists out1 out2,
    RemoteDispatcher._poll_body dispatcher (Received broker_error) fresh_world =
      (Ok tt, advanced dispatcher 1 out1 [] fresh_world) /\
    RemoteDispatcher._poll dispatcher [Received broker_error] fresh_world =
      RemoteDispatcher._poll dispatcher [] (advanced dispatcher 1 out1 [] fresh_world) /\
    RemoteDispatcher._poll dispatcher
      [Received broker_error; Received (message wire_start)] fresh_world =
      RemoteDispatcher._poll dispatcher []
        (advanced dispatcher 2 (out1 ++ out2) [(DocumentNames.start, start_doc)]
           fresh_world).
Proof.
  apply (skipped_poll_keeps_loop_running dispatcher (Received broker_error)
           (message wire_start) (DocumentNames.start, start_doc) [] fresh_world).
  - reflexivity.
  - reflexivity.
  - split; [split; [reflexivity|vm_compute; reflexivity]|repeat constructor].
Defined.

(** The theorem of C6 on the two documents of the scenario. *)
Lemma valid_messages_dispatched_in_order_witness :
  exists k,
    consumer_calls (dw_consumer
      (RemoteDispatcher._poll dispatcher
         (map Received [message wire_start; message wire_stop]) fresh_world).2) =
      consumer_calls (dw_consumer fresh_world) ++ replicate k (ConsumerPoll 1) /\
    dw_processed
      (RemoteDispatcher._poll dispatcher
         (map Received [message wire_start; message wire_stop]) fresh_world).2 =
      dw_processed fresh_world ++
        take k [(DocumentNames.start, start_doc); (DocumentNames.stop, stop_doc)] /\
    (Forall (accepted dispatcher)
       [(DocumentNames.start, start_doc); (DocumentNames.stop, stop_doc)] ->
     (RemoteDispatcher._poll dispatcher
        (map Received [message wire_start; message wire_stop]) fresh_world).1 =
       Pending /\
     k = length [message wire_start; message wire_stop] /\
     dw_delivered
       (RemoteDispatcher._poll dispatcher
          (map Received [message wire_start; message wire_stop]) fresh_world).2 =
       dw_delivered fresh_world ++
         flat_map (fanned_out dispatcher)
           [(DocumentNames.start, start_doc); (DocumentNames.stop, stop_doc)]).
Proof.
  apply (valid_messages_dispatched_in_order dispatcher
           [message wire_start; message wire_stop]
           [(DocumentNames.start, start_doc); (DocumentNames.stop, stop_doc)]
           fresh_world
           (RemoteDispatcher._poll dispatcher
              (map Received [message wire_start; message wire_stop]) fresh_world).1).
  - reflexivity.
  - repeat (constructor; [split; [reflexivity|vm_compute; reflexivity]|]).
    constructor.
  - vm_compute. reflexivity.
Defined.

(** The theorem of C9 on a payload the codec cannot read, between the
    two documents of the scenario. *)
Lemma poisoned_message_ends_instance_witness :
  exists out,
    RemoteDispatcher.start dispatcher
      ([Received (message wire_start)] ++
       Received poisoned :: [Received (message wire_stop)]) fresh_world =
      (Raise (UserError "UnpicklingError"),
       stopped (advanced dispatcher 1 out []
         (RemoteDispatcher._poll dispatcher [Received (message wire_start)]
            fresh_world).2)) /\
    dw_processed
      (stopped (advanced dispatcher 1 out []
         (RemoteDispatcher._poll dispatcher [Received (message wire_start)]
            fresh_world).2)) =
      dw_processed
        (RemoteDispatcher._poll dispatcher [Received (message wire_start)]
           fresh_world).2 /\
    dw_delivered
      (stopped (advanced dispatcher 1 out []
         (RemoteDispatcher._poll dispatcher [Received (message wire_start)]
            fresh_world).2)) =
      dw_delivered
        (RemoteDispatcher._poll dispatcher [Received (message wire_start)]
           fresh_world).2 /\
    forall responses,
      RemoteDispatcher.start dispatcher responses
        (stopped (advanced dispatcher 1 out []
           (RemoteDispatcher._poll dispatcher [Received (message wire_start)]
              fresh_world).2)) =
        (Raise (RuntimeError (already_started dispatcher)),
         stopped (advanced dispatcher 1 out []
           (RemoteDispatcher._poll dispatcher [Received (message wire_start)]
              fresh_world).2)).
Proof.
  apply (poisoned_message_ends_instance dispatcher
           [Received (message wire_start)] poisoned
           [Received (message wire_stop)] (UserError "UnpicklingError")
           fresh_world).
  - reflexivity.
  - reflexivity.
  - vm_compute. reflexivity.
  - reflexivity.
  - vm_compute. reflexivity.
Defined.

(** The scenario of the spec, end to end: what the publisher hands to
    its producer for the start document is what the dispatcher reads
    back and hands to its subscriber. *)
Example scenario_round_trip :
  map (fun mc => value mc.1) (queue (pw_producer after_start)) = [wire_start] /\
  dw_processed
    (RemoteDispatcher.start dispatcher
       (map (fun mc => Received (message (value mc.1)))
          (queue (pw_producer after_start)))
       fresh_world).2 = [(DocumentNames.start, start_doc)].
Proof. vm_compute. by split. Qed.

End DispatcherScenario.

(** * Further properties *)

(** ** Every path through [Publisher.__call__] *)

Section PublisherPaths.

Implicit Types (w : pub_world) (self : Publisher.t).

(** The [except BufferError] block, lines 56-61, never lets a
    [BufferError] out. *)
Lemma handler_raises self doc w r w' e :
  (Producer_poll 10 ;;
   callback <- Publisher.getattr self "delivery_report" ;;
   Producer_produce "bluesky-event" doc callback) w = (r, w') ->
  r = Raise e -> is_BufferError e = false.
Proof.
  unfold bind at 1.
  destruct (Producer_poll 10 w) as [[k|e1|] w1] eqn:Hpoll;
    apply Producer_poll_frame in Hpoll as (_ & _ & _ & He).
  - unfold bind. rewrite getattr_delivery_report. by intros [= <- <-] [= <-].
  - intros [= <- <-] [= <-]. by apply He.
  - by intros [= <- <-].
Qed.

(** What a call of [publish] has done when it is over: the calls it made
    on the handle, case by case. *)
Lemma call_cases self name doc w r w' :
  Publisher.__call__ self name doc w = (r, w') ->
  (forall e, r = Raise e -> is_BufferError e = false) /\
  exists new,
    calls (pw_producer w') = calls (pw_producer w) ++ new /\
    ((r <> Ok tt /\ (new = [] \/ new = [ProducerPoll 10])) \/
     exists copy d wire,
       deepcopy_rec (pw_limit w) doc (pw_heap w) = Some (copy, pw_heap w') /\
       snapshot (pw_limit w) (pw_heap w') copy = Some d /\
       Publisher._serializer self (PyTuple [PyStr name; d]) = Returns wire /\
       ((queue_full (pw_producer w) /\ r <> Ok tt /\
         new = [Produce "bluesky-event" (VBytes wire) delivery_report_function;
                ProducerPoll 10]) \/
        (~ queue_full (pw_producer w) /\
         new = [Produce "bluesky-event" (VBytes wire) delivery_report_function;
                ProducerPoll 0]))).
Proof.
  unfold Publisher.__call__, bind at 1, deepcopy.
  destruct (deepcopy_rec (pw_limit w) doc (pw_heap w)) as [[copy h']|] eqn:Hcopy;
    [|intros [= <- <-]; split; [by intros e [= <-]|];
      exists []; rewrite app_nil_r; split; [done|]; left; by split; [|left]].
  unfold try_except, bind at 1, Publisher.call_serializer.
  cbn [pw_limit pw_heap set_heap].
  destruct (snapshot (pw_limit w) h' copy) as [d|] eqn:Hd;
    [|intros [= <- <-]; split; [by intros e [= <-]|];
      exists []; rewrite app_nil_r; split; [done|]; left; by split; [|left]].
  destruct (Publisher._serializer self (PyTuple [PyStr name; d])) as [wire|e] eqn:Hser;
    cbn [lift].
  - unfold bind at 1.
    destruct (decide (queue_full (pw_producer (set_heap h' w)))) as [Hfull|Hroom].
    + rewrite Producer_produce_full by exact Hfull. cbn [is_BufferError].
      intros Hrun. split; [intros e0; by apply (handler_raises _ _ _ _ _ _ Hrun)|].
      apply handler_frame in Hrun as (Hr & Hh & Hc). simpl in Hh, Hc.
      eexists. rewrite Hc, <- app_assoc. split; [done|]. right.
      exists copy, d, wire. rewrite Hh. repeat split; try done. by left.
    + rewrite Producer_produce_room by exact Hroom.
      unfold bind at 1.
      destruct (Producer_poll 0 _) as [[k|e|] w1] eqn:Hpoll;
        apply Producer_poll_frame in Hpoll as (Hh & Hc & _ & He);
        simpl in Hh, Hc; [|rewrite (He e eq_refl)|]; intros [= <- <-];
        (split; [try done; by intros e0 [= <-]; apply He|]);
        (eexists; rewrite Hc, <- app_assoc; split; [done|]; right;
         exists copy, d, wire; rewrite Hh; repeat split; try done; by right).
  - destruct (is_BufferError e) eqn:He.
    + intros Hrun. split; [intros e0; by apply (handler_raises _ _ _ _ _ _ Hrun)|].
      apply handler_frame in Hrun as (Hr & Hh & Hc). simpl in Hh, Hc.
      exists [ProducerPoll 10]. split; [done|]. left. split; [done|by right].
    + intros [= <- <-]. split; [by intros e0 [= <-]|].
      exists []. rewrite app_nil_r. split; [done|]. left. by split; [|left].
Qed.

(** C2: every submission a call of [publish] hands to the producer
    goes to the topic [bluesky-event], with [delivery_report] as
    callback, and carries the bytes the serializer returned for
    [(name, copy)], where the copy denotes what the document denoted
    when the call was made.  It is the only submission of the call: the
    second [produce], line 59, is never reached, so that no submission
    carries anything else. *)
Theorem every_submission_carries_wire_message
    self name doc w r w' new tp v cb :
  Publisher.__call__ self name doc w = (r, w') ->
  calls (pw_producer w') = calls (pw_producer w) ++ new ->
  Produce tp v cb ∈ new ->
  tp = "bluesky-event" /\
  cb = delivery_report_function /\
  submissions new = [Produce tp v cb] /\
  exists copy d wire,
    deepcopy_rec (pw_limit w) doc (pw_heap w) = Some (copy, pw_heap w') /\
    snapshot (pw_limit w) (pw_heap w') copy = Some d /\
    (forall d0, snapshot (pw_limit w) (pw_heap w) doc = Some d0 -> d0 = d) /\
    Publisher._serializer self (PyTuple [PyStr name; d]) = Returns wire /\
    v = VBytes wire.
Proof.
  intros Hrun Hnew Hin.
  apply call_cases in Hrun as (_ & new' & Hcalls & Hcases).
  rewrite Hcalls in Hnew. apply app_inv_head in Hnew. subst new'.
  destruct Hcases as [(_ & [->| ->])|(copy & d & wire & Hcopy & Hd & Hser & Hpath)].
  { by apply elem_of_nil in Hin. }
  { apply list_elem_of_singleton in Hin. discriminate. }
  assert (Hsame : forall d0,
            snapshot (pw_limit w) (pw_heap w) doc = Some d0 -> d0 = d).
  { intros d0 Hd0.
    destruct (deepcopy_rec_spec _ _ _ _ Hd0) as (copy0 & h0 & Hcopy0 & _ & Hind).
    rewrite Hcopy in Hcopy0. injection Hcopy0 as <- <-.
    specialize (Hind _ (preserves_new_refl _ _)). congruence. }
  destruct Hpath as [(_ & _ & ->)|(_ & ->)];
    apply elem_of_cons in Hin as [Hin|Hin];
    try (apply list_elem_of_singleton in Hin; discriminate);
    injection Hin as -> -> ->;
    (do 3 (split; [done|])); by exists copy, d, wire.
Qed.

End PublisherPaths.

(** ** What the producer has taken charge of *)

Section PublisherAccepted.

Implicit Types (w : pub_world) (self : Publisher.t).

Lemma report_values fs (ms : list Message) :
  map (fun r => value r.2) (zip_with report fs ms) = map value (take (length fs) ms).
Proof.
  revert ms. induction fs as [|f fs IH]; intros [|m ms]; simpl; try done.
  rewrite IH. by destruct f.
Qed.

(** Serving reports moves payloads from the queue to the reports and
    neither loses nor reorders one. *)
Lemma served_accepted fs out w :
  accepted_payloads (pw_producer (served fs out w)) = accepted_payloads (pw_producer w).
Proof.
  unfold accepted_payloads, served; simpl.
  rewrite map_app, report_values, <- app_assoc. f_equal.
  rewrite <- (take_drop (length fs) (queue (pw_producer w))) at 3.
  rewrite map_app. f_equal.
  by rewrite <- fmap_take, <- list_fmap_compose.
Qed.

(** The run of [publish] on a queue with room. *)
Lemma call_room self name doc w d wire :
  snapshot (pw_limit w) (pw_heap w) doc = Some d ->
  Publisher._serializer self (PyTuple [PyStr name; d]) = Returns wire ->
  ~ queue_full (pw_producer w) ->
  reports_only (pw_producer w) ->
  exists w',
    Publisher.__call__ self name doc w = (Ok tt, w') /\
    calls (pw_producer w') =
      calls (pw_producer w) ++
        [Produce "bluesky-event" (VBytes wire) delivery_report_function;
         ProducerPoll 0] /\
    accepted_payloads (pw_producer w') = accepted_payloads (pw_producer w) ++ [wire] /\
    reports_only (pw_producer w').
Proof.
  intros Hd Hwire Hroom Hcb.
  destruct (deepcopy_run _ _ _ Hd) as (copy & h' & _ & Hcopy & _ & Hind).
  unfold Publisher.__call__, bind at 1. rewrite Hcopy.
  unfold try_except, bind at 1.
  rewrite (call_serializer_run _ _ _ _ d) by apply Hind, preserves_new_refl.
  rewrite Hwire. cbn [lift].
  unfold bind at 1. rewrite Producer_produce_room by exact Hroom.
  set (w1 := set_producer _ _).
  assert (Hcb1 : reports_only (pw_producer w1)).
  { apply Forall_app. split; [exact Hcb|]. by apply Forall_singleton. }
  destruct (Producer_poll_spec 0 w1 Hcb1) as (out & Hpoll & _).
  unfold bind at 1. rewrite Hpoll. unfold bind, ret.
  eexists. split; [reflexivity|]. split; [|split].
  - simpl. by rewrite <- app_assoc.
  - rewrite served_accepted. unfold accepted_payloads; simpl.
    by rewrite map_app, app_assoc.
  - by apply served_reports_only.
Qed.

(** X1: a call of [publish] that finds room in the queue returns
    normally whatever the broker reports about earlier messages: it
    makes one submission, of the serialized pair to the topic
    [bluesky-event] with [delivery_report] as callback, then one
    [poll(0)]; the producer has taken charge of the wire message, after
    those it had, and every callback in flight is still
    [delivery_report]. *)
Theorem publish_with_room_submits_once self name doc w d wire :
  snapshot (pw_limit w) (pw_heap w) doc = Some d ->
  Publisher._serializer self (PyTuple [PyStr name; d]) = Returns wire ->
  ~ queue_full (pw_producer w) ->
  reports_only (pw_producer w) ->
  exists w',
    Publisher.__call__ self name doc w = (Ok tt, w') /\
    calls (pw_producer w') =
      calls (pw_producer w) ++
        [Produce "bluesky-event" (VBytes wire) delivery_report_function;
         ProducerPoll 0] /\
    accepted_payloads (pw_producer w') = accepted_payloads (pw_producer w) ++ [wire] /\
    reports_only (pw_producer w').
Proof. apply call_room. Qed.

(** X2: when [publish] returns normally, the document was copied, the
    copy was serialized, the queue had room, and the handle was given
    exactly one submission, of the serialized copy, followed by
    [poll(0)]: the call never returns normally on another path. *)
Theorem publish_returns_only_after_submission self name doc w w' :
  Publisher.__call__ self name doc w = (Ok tt, w') ->
  exists copy d wire,
    deepcopy_rec (pw_limit w) doc (pw_heap w) = Some (copy, pw_heap w') /\
    snapshot (pw_limit w) (pw_heap w') copy = Some d /\
    Publisher._serializer self (PyTuple [PyStr name; d]) = Returns wire /\
    ~ queue_full (pw_producer w) /\
    calls (pw_producer w') =
      calls (pw_producer w) ++
        [Produce "bluesky-event" (VBytes wire) delivery_report_function;
         ProducerPoll 0].
Proof.
  intros Hrun. apply call_cases in Hrun as (_ & new & Hcalls & [[Hr _]|Hsub]);
    [done|].
  destruct Hsub as (copy & d & wire & Hcopy & Hd & Hser & [(_ & Hr & _)|(Hroom & ->)]);
    [done|].
  by exists copy, d, wire.
Qed.

(** X3: an exception of the serializer other than [BufferError] reaches
    the caller as it is; the handle is not called at all, and the world
    differs from the one before the call by the copy of the document
    only. *)
Theorem serializer_error_reaches_caller self name doc w d e :
  snapshot (pw_limit w) (pw_heap w) doc = Some d ->
  Publisher._serializer self (PyTuple [PyStr name; d]) = Raises e ->
  is_BufferError e = false ->
  exists copy h',
    deepcopy_rec (pw_limit w) doc (pw_heap w) = Some (copy, h') /\
    Publisher.__call__ self name doc w = (Raise e, set_heap h' w).
Proof.
  intros Hd Hser He.
  destruct (deepcopy_run _ _ _ Hd) as (copy & h' & Hrec & Hcopy & _ & Hind).
  exists copy, h'. split; [done|].
  unfold Publisher.__call__, bind at 1. rewrite Hcopy.
  unfold try_except, bind at 1.
  rewrite (call_serializer_run _ _ _ _ d) by apply Hind, preserves_new_refl.
  rewrite Hser. cbn [lift]. by rewrite He.
Qed.

(** X4: a [BufferError] raised by the serializer is caught by the
    [except BufferError] of the call like one of [produce]: the call
    waits in [poll(10)] and raises [AttributeError], and the handle has
    been given no submission. *)
Theorem serializer_BufferError_is_caught self name doc w d e :
  snapshot (pw_limit w) (pw_heap w) doc = Some d ->
  Publisher._serializer self (PyTuple [PyStr name; d]) = Raises e ->
  is_BufferError e = true ->
  reports_only (pw_producer w) ->
  exists w',
    Publisher.__call__ self name doc w =
      (Raise (AttributeError "Publisher" "delivery_report"), w') /\
    calls (pw_producer w') = calls (pw_producer w) ++ [ProducerPoll 10] /\
    accepted_payloads (pw_producer w') = accepted_payloads (pw_producer w).
Proof.
  intros Hd Hser He Hcb.
  destruct (deepcopy_run _ _ _ Hd) as (copy & h' & Hrec & Hcopy & _ & Hind).
  unfold Publisher.__call__, bind at 1. rewrite Hcopy.
  unfold try_except, bind at 1.
  rewrite (call_serializer_run _ _ _ _ d) by apply Hind, preserves_new_refl.
  rewrite Hser. cbn [lift]. rewrite He.
  destruct (Producer_poll_spec 10 (set_heap h' w) Hcb) as (out & Hpoll & _).
  unfold bind at 1. rewrite Hpoll.
  unfold bind. rewrite getattr_delivery_report.
  eexists. split; [reflexivity|]. split; [done|].
  by rewrite served_accepted.
Qed.

(** X5: no call of [publish] ends with a [BufferError]: whatever raises
    one inside the [try] is caught, and the handler raises something
    else. *)
Theorem publish_never_raises_BufferError self name doc w e w' :
  Publisher.__call__ self name doc w = (Raise e, w') ->
  is_BufferError e = false.
Proof.
  intros Hrun. apply call_cases in Hrun as (He & _). by apply He.
Qed.

(** X6: a call of [publish] that raises has left nothing with the
    producer: the payloads the producer is in charge of are those it had
    before the call. *)
Theorem failed_publish_leaves_nothing_behind self name doc w e w' :
  reports_only (pw_producer w) ->
  Publisher.__call__ self name doc w = (Raise e, w') ->
  accepted_payloads (pw_producer w') = accepted_payloads (pw_producer w).
Proof.
  intros Hcb. unfold Publisher.__call__, bind at 1, deepcopy.
  destruct (deepcopy_rec (pw_limit w) doc (pw_heap w)) as [[copy h']|];
    [|by intros [= _ <-]].
  assert (Hhandler : forall w0 r0,
    reports_only (pw_producer w0) ->
    (Producer_poll 10 ;;
     callback <- Publisher.getattr self "delivery_report" ;;
     Producer_produce "bluesky-event" copy callback) w0 = (r0, w') ->
    accepted_payloads (pw_producer w') = accepted_payloads (pw_producer w0)).
  { intros w0 r0 Hw0. unfold bind at 1.
    destruct (Producer_poll_spec 10 w0 Hw0) as (out & -> & _).
    unfold bind. rewrite getattr_delivery_report. intros [= _ <-].
    by rewrite served_accepted. }
  unfold try_except, bind at 1, Publisher.call_serializer.
  destruct (snapshot _ _ _) as [d|]; [|by intros [= _ <-]].
  destruct (Publisher._serializer self _) as [wire|e1]; cbn [lift].
  - unfold bind at 1.
    destruct (decide (queue_full (pw_producer (set_heap h' w)))) as [Hfull|Hroom].
    + rewrite Producer_produce_full by exact Hfull. cbn [is_BufferError].
      intros Hrun. apply Hhandler in Hrun; [by rewrite Hrun|exact Hcb].
    + rewrite Producer_produce_room by exact Hroom.
      set (w1 := set_producer _ _).
      assert (Hcb1 : reports_only (pw_producer w1)).
      { apply Forall_app. split; [exact Hcb|]. by apply Forall_singleton. }
      destruct (Producer_poll_spec 0 w1 Hcb1) as (out & Hpoll & _).
      unfold bind at 1. by rewrite Hpoll.
  - destruct (is_BufferError e1).
    + intros Hrun. apply Hhandler in Hrun; [by rewrite Hrun|exact Hcb].
    + by intros [= _ <-].
Qed.

(** X7: [close] hands over everything the producer was in charge of:
    when it returns, the queue is empty and the payloads reported on are
    those the producer had reported on or had in flight, in the order
    they were accepted. *)
Theorem close_reports_accepted_payloads_in_order self w :
  reports_only (pw_producer w) ->
  exists w1,
    Publisher.close self w = (Ok tt, w1) /\
    queue (pw_producer w1) = [] /\
    map (fun r => value r.2) (reported (pw_producer w1)) =
      accepted_payloads (pw_producer w).
Proof.
  intros Hcb. destruct (close_spec self w Hcb) as (out & Hrun & _).
  eexists. split; [exact Hrun|].
  match goal with
  | |- queue (pw_producer (served ?fs ?o ?w0)) = _ /\ _ =>
      pose proof (served_accepted fs o w0) as Hacc
  end.
  assert (Hempty : queue (pw_producer
    (served (final_fates (pw_producer w)) out
       (set_producer
          (set_broker
             match drop (length (queue (pw_producer w)))
                     (concat (broker (pw_producer w))) with
             | [] => []
             | rest => [rest]
             end (log_call Flush (pw_producer w))) w))) = []).
  { simpl. apply drop_ge. by rewrite final_fates_length. }
  split; [exact Hempty|].
  unfold accepted_payloads in Hacc at 1. rewrite Hempty in Hacc.
  simpl in Hacc. by rewrite app_nil_r in Hacc.
Qed.

Lemma after_publisher_call_reports_only self c w :
  reports_only (pw_producer w) ->
  reports_only (pw_producer (after_publisher_call self w c)).
Proof.
  intros Hw. destruct c as [name doc| |h]; simpl.
  - destruct (Publisher.__call__ self name doc w) as [r w'] eqn:Hrun.
    by apply (call_reports_only _ _ _ _ _ _ Hw Hrun).
  - destruct (Publisher.close self w) as [r w'] eqn:Hrun.
    by apply (close_reports_only _ _ _ _ Hw Hrun).
  - done.
Qed.

(** X8: [close] never raises.  In every world a publisher reaches from
    [__init__] by calls of [publish] and [close], however they end and
    whatever the caller does to its objects in between, [close] returns
    normally and leaves no message in flight: no call registers a
    callback other than [delivery_report], which does not raise. *)
Theorem close_never_raises addr serializer cap script h limit out cs :
  let self := (Publisher.__init__ addr serializer cap script h limit out).1 in
  let w0 := (Publisher.__init__ addr serializer cap script h limit out).2 in
  exists w2,
    Publisher.close self (after_publisher_calls self cs w0) = (Ok tt, w2) /\
    queue (pw_producer w2) = [] /\
    pw_heap w2 = pw_heap (after_publisher_calls self cs w0).
Proof.
  intros self w0.
  assert (Hcb : reports_only (pw_producer (after_publisher_calls self cs w0))).
  { unfold after_publisher_calls.
    assert (Hw0 : reports_only (pw_producer w0)) by apply Forall_nil_2.
    revert Hw0. generalize w0.
    induction cs as [|c cs IH]; intros w Hw; simpl; [done|].
    by apply IH, after_publisher_call_reports_only. }
  destruct (close_spec self _ Hcb) as (lines & Hclose & _).
  eexists. split; [exact Hclose|]. split; [|done].
  simpl. apply drop_ge. by rewrite final_fates_length.
Qed.

(** Serving reports prints, for each report served, the line
    [delivery_report] prints for it. *)
Lemma serve_lines fs w :
  reports_only (pw_producer w) ->
  exists out,
    serve fs w = (Ok (length fs `min` length (queue (pw_producer w))),
                  served fs out w) /\
    Forall2 (fun r line => prints (delivery_report r.1 r.2) line)
      (zip_with report fs (queue (pw_producer w)).*1) out.
Proof.
  revert w. induction fs as [|f fs IH]; intros w Hw.
  { exists []. rewrite served_nil. by split; [|constructor]. }
  destruct w as [h lim [c k q b cs rs] o]. unfold reports_only in Hw; simpl in Hw.
  destruct q as [|[m cb] q].
  { exists []. split; [|constructor]. simpl. run. unfold served; simpl.
    by rewrite !app_nil_r. }
  apply Forall_cons in Hw as [Hcb Hq]. simpl in Hcb. subst cb.
  set (w1 := mkPubWorld h lim (mkProducer c k q b cs (rs ++ [report f m])) o).
  assert (Hline : exists line, prints (delivery_report (report f m).1 (report f m).2) line).
  { destruct f; eexists; intros w; reflexivity. }
  destruct Hline as [line Hline].
  destruct (IH (mkPubWorld h lim (pw_producer w1) (o ++ [line])) Hq)
    as (out & Hrun & Hall).
  exists (line :: out). split; [|by constructor].
  simpl. run. unfold set_producer, log_report, set_queue; simpl.
  fold w1. rewrite (Hline w1). simpl in *. rewrite Hrun.
  unfold served; simpl. by rewrite <- !app_assoc.
Qed.

(** X9: [close] prints one line for each message in flight, oldest
    first, and nothing else: the line [delivery_report] prints for the
    report of that message, so a message that failed is reported with
    its error and a message that arrived with its topic and the
    partition the broker put it in. *)
Theorem close_prints_one_line_per_message self w :
  reports_only (pw_producer w) ->
  exists w1 out,
    Publisher.close self w = (Ok tt, w1) /\
    pw_stdout w1 = pw_stdout w ++ out /\
    length out = length (queue (pw_producer w)) /\
    reported (pw_producer w1) =
      reported (pw_producer w) ++
        zip_with report (final_fates (pw_producer w)) (queue (pw_producer w)).*1 /\
    Forall2 (fun r line => prints (delivery_report r.1 r.2) line)
      (zip_with report (final_fates (pw_producer w)) (queue (pw_producer w)).*1) out.
Proof.
  intros Hw. destruct w as [h lim [c k q b cs rs] o].
  unfold Publisher.close, Producer_flush. run.
  match goal with
  | |- context [serve ?fs ?w1] =>
      destruct (serve_lines fs w1 Hw) as (out & Hrun & Hall)
  end.
  rewrite Hrun. eexists _, out. split; [reflexivity|]. simpl in *.
  split; [done|]. split; [|by split].
  apply Forall2_length in Hall. rewrite <- Hall.
  rewrite length_zip_with, length_fmap, length_take, length_app, length_replicate.
  lia.
Qed.

(** Copies are made beside the objects that are there. *)
Lemma copy_items_subseteq copy (xs ys : list pyval) (h h' : heap) :
  (forall x h0 y h1, copy x h0 = Some (y, h1) -> h0 ⊆ h1) ->
  copy_items copy xs h = Some (ys, h') -> h ⊆ h'.
Proof.
  intros Hcopy. revert ys h.
  induction xs as [|x xs IH]; intros ys h; simpl.
  { by intros [= _ <-]. }
  destruct (copy x h) as [[x' h1]|] eqn:Hx; [|done].
  destruct (copy_items copy xs h1) as [[xs' h2]|] eqn:Hxs; [|done].
  intros [= _ <-]. etrans; [by eapply Hcopy|by eapply IH].
Qed.

Lemma deepcopy_rec_subseteq n v (h : heap) copy h' :
  deepcopy_rec n v h = Some (copy, h') -> h ⊆ h'.
Proof.
  revert v h copy h'. induction n as [|n IH]; intros [] h copy h'; simpl;
    try (by intros [= _ <-]); try done.
  destruct (h !! l) as [[items|items]|]; [| |done].
  - destruct (copy_items (deepcopy_rec n) items.*2 h) as [[xs h1]|] eqn:Hxs; [|done].
    intros [= _ <-]. etrans; [by eapply copy_items_subseteq|apply alloc_subseteq].
  - destruct (copy_items (deepcopy_rec n) items h) as [[xs h1]|] eqn:Hxs; [|done].
    intros [= _ <-]. etrans; [by eapply copy_items_subseteq|apply alloc_subseteq].
Qed.

(** X10: [publish] never writes to an object that exists when it is
    called.  However the call ends, the heap it leaves holds every
    object of the heap it started in, unchanged, so every value of the
    caller denotes the tree it denoted before. *)
Theorem publish_leaves_callers_objects_alone self name doc w r w' :
  Publisher.__call__ self name doc w = (r, w') ->
  pw_heap w ⊆ pw_heap w' /\
  forall n v d,
    snapshot n (pw_heap w) v = Some d -> snapshot n (pw_heap w') v = Some d.
Proof.
  intros Hrun.
  assert (Hsub : pw_heap w ⊆ pw_heap w').
  { revert Hrun. unfold Publisher.__call__, bind at 1, deepcopy.
    destruct (deepcopy_rec (pw_limit w) doc (pw_heap w)) as [[copy h']|] eqn:Hcopy;
      [|by intros [= _ <-]].
    apply deepcopy_rec_subseteq in Hcopy.
    unfold try_except, bind at 1, Publisher.call_serializer.
    destruct (snapshot _ _ _) as [d|]; [|by intros [= _ <-]].
    destruct (Publisher._serializer self _) as [wire|e1]; cbn [lift].
    - unfold bind at 1.
      destruct (decide (queue_full (pw_producer (set_heap h' w)))) as [Hfull|Hroom].
      + rewrite Producer_produce_full by exact Hfull. cbn [is_BufferError].
        intros Hh. apply handler_frame in Hh as (_ & -> & _). done.
      + rewrite Producer_produce_room by exact Hroom.
        unfold bind at 1.
        destruct (Producer_poll 0 _) as [[k|e|] w1] eqn:Hpoll;
          apply Producer_poll_frame in Hpoll as (Hh & _ & _ & He);
          simpl in Hh; [|rewrite (He e eq_refl)|]; intros [= _ <-];
          by rewrite Hh.
    - destruct (is_BufferError e1).
      + intros Hh. apply handler_frame in Hh as (_ & -> & _). done.
      + by intros [= _ <-]. }
  split; [exact Hsub|]. intros n v d. by apply snapshot_weaken.
Qed.

End PublisherAccepted.

(** ** A caller that goes on writing to the document *)

Section PublisherRaces.

Implicit Types (w : pub_world) (self : Publisher.t) (h : heap).

(** The call is the copy of line 49 followed by the rest. *)
Lemma call_is_copy_then_publish self name doc :
  Publisher.__call__ self name doc =
    (copy <- deepcopy doc ;; publish_copy self name copy).
Proof. reflexivity. Qed.

(** With the other thread idle, the copy is the one [deepcopy_rec]
    makes. *)
Lemma copy_items_racing_idle copy copy' (xs ys : list pyval) h h' :
  (forall x h0 y h1,
     copy x h0 = Some (y, h1) -> copy' x (h0, []) = (Some y, (h1, []))) ->
  copy_items copy xs h = Some (ys, h') ->
  copy_items_racing copy' xs (h, []) = (Some ys, (h', [])).
Proof.
  intros Hcopy. revert ys h.
  induction xs as [|x xs IH]; intros ys h; simpl.
  { by intros [= <- <-]. }
  destruct (copy x h) as [[x' h1]|] eqn:Hx; [|done].
  destruct (copy_items copy xs h1) as [[xs' h2]|] eqn:Hxs; [|done].
  intros [= <- <-]. unfold switch; simpl.
  by rewrite (Hcopy _ _ _ _ Hx), (IH _ _ Hxs).
Qed.

Lemma deepcopy_racing_idle n v h copy h' :
  deepcopy_rec n v h = Some (copy, h') ->
  deepcopy_racing n v (h, []) = (Some copy, (h', [])).
Proof.
  revert v h copy h'. induction n as [|n IH]; intros [] h copy h'; simpl;
    try (by intros [= <- <-]); try done.
  destruct (h !! l) as [[items|items]|]; [| |done].
  - destruct (copy_items (deepcopy_rec n) items.*2 h) as [[xs h1]|] eqn:Hxs; [|done].
    intros [= <- <-]. by rewrite (copy_items_racing_idle _ _ _ _ _ _ IH Hxs).
  - destruct (copy_items (deepcopy_rec n) items h) as [[xs h1]|] eqn:Hxs; [|done].
    intros [= <- <-]. by rewrite (copy_items_racing_idle _ _ _ _ _ _ IH Hxs).
Qed.

(** A call during which no other thread writes is the call of the
    module. *)
Lemma call_racing_idle self name doc w copy h' after :
  deepcopy_rec (pw_limit w) doc (pw_heap w) = Some (copy, h') ->
  (forall h, after h = h) ->
  call_racing self name doc [] after w = Publisher.__call__ self name doc w.
Proof.
  intros Hcopy Hidle. unfold call_racing.
  rewrite (deepcopy_racing_idle _ _ _ _ _ Hcopy). simpl. rewrite Hidle.
  rewrite call_is_copy_then_publish. unfold bind, deepcopy. by rewrite Hcopy.
Qed.

(** An assignment to an object that existed when the call was made is a
    write of the caller's. *)
Lemma overwrite_callers h0 l (o : object) :
  is_Some (h0 !! l) -> callers h0 <[l := o]>.
Proof.
  intros Hl h l' _ Hnew. apply lookup_insert_ne. intros ->.
  by apply Hnew, elem_of_dom.
Qed.

(** Lines 50-61 on a copy that denotes [d]. *)
Lemma publish_copy_run self name copy w d wire :
  snapshot (pw_limit w) (pw_heap w) copy = Some d ->
  Publisher._serializer self (PyTuple [PyStr name; d]) = Returns wire ->
  exists r w' timeout,
    publish_copy self name copy w = (r, w') /\
    pw_heap w' = pw_heap w /\
    calls (pw_producer w') =
      calls (pw_producer w) ++
        [Produce "bluesky-event" (VBytes wire) delivery_report_function;
         ProducerPoll timeout] /\
    (~ queue_full (pw_producer w) -> reports_only (pw_producer w) ->
     r = Ok tt /\
     accepted_payloads (pw_producer w') = accepted_payloads (pw_producer w) ++ [wire]).
Proof.
  intros Hd Hser. unfold publish_copy, try_except, bind at 1.
  rewrite (call_serializer_run _ _ _ _ d Hd), Hser. cbn [lift].
  unfold bind at 1.
  destruct (decide (queue_full (pw_producer w))) as [Hfull|Hroom].
  - rewrite Producer_produce_full by exact Hfull. cbn [is_BufferError].
    match goal with |- context [bind ?c ?k ?w1] =>
      destruct (bind c k w1) as [r w'] eqn:Hrun end.
    apply handler_frame in Hrun as (_ & Hh & Hc). simpl in Hh, Hc.
    exists r, w', 10%Z. split; [done|]. split; [done|].
    rewrite Hc, <- app_assoc. by split.
  - rewrite Producer_produce_room by exact Hroom.
    set (w1 := set_producer _ _). unfold bind at 1.
    destruct (Producer_poll 0 w1) as [o w2] eqn:Hpoll.
    pose proof (Producer_poll_frame _ _ _ _ Hpoll) as (Hh & Hc & _ & He).
    exists (match o with Ok _ => Ok tt | Raise e => Raise e | Pending => Pending end),
      w2, 0%Z.
    split; [|split; [done|split]].
    + destruct o as [k|e|]; [done| |done]. by rewrite (He e eq_refl).
    + rewrite Hc. simpl. by rewrite <- app_assoc.
    + intros _ Hcb.
      assert (Hcb1 : reports_only (pw_producer w1)).
      { apply Forall_app. split; [exact Hcb|]. by apply Forall_singleton. }
      destruct (Producer_poll_spec 0 w1 Hcb1) as (out & Hspec & _).
      rewrite Hspec in Hpoll. injection Hpoll as <- <-. split; [done|].
      rewrite served_accepted. unfold accepted_payloads; simpl.
      by rewrite map_app, app_assoc.
Qed.

(** C7, as amended: [publish] copies the document on entry and
    serializes the copy.  With no other thread writing while the copy is
    made, the copy denotes the tree the document denoted when the call
    was made, and whatever the caller writes afterwards to the objects
    it holds, during the rest of the call ([after]) or once the call is
    over (any heap [h2]), cannot change what is transmitted: the call
    hands the producer the bytes of [(name, that tree)], which a queue
    with room accepts, and [close] works from those bytes, not from the
    heap.  With [after] the identity the run is the one of
    [Publisher.__call__]. *)
Theorem publish_sends_tree_at_call_time self name doc w d wire after :
  snapshot (pw_limit w) (pw_heap w) doc = Some d ->
  Publisher._serializer self (PyTuple [PyStr name; d]) = Returns wire ->
  callers (pw_heap w) after ->
  exists copy h' r w' timeout,
    deepcopy_rec (pw_limit w) doc (pw_heap w) = Some (copy, h') /\
    pw_heap w ⊆ h' /\
    snapshot (pw_limit w) (after h') copy = Some d /\
    call_racing self name doc [] after w = (r, w') /\
    pw_heap w' = after h' /\
    calls (pw_producer w') =
      calls (pw_producer w) ++
        [Produce "bluesky-event" (VBytes wire) delivery_report_function;
         ProducerPoll timeout] /\
    (~ queue_full (pw_producer w) -> reports_only (pw_producer w) ->
     r = Ok tt /\
     accepted_payloads (pw_producer w') = accepted_payloads (pw_producer w) ++ [wire]) /\
    ((forall h, after h = h) -> Publisher.__call__ self name doc w = (r, w')) /\
    (forall h2,
       pw_producer (Publisher.close self (set_heap h2 w')).2 =
         pw_producer (Publisher.close self w').2 /\
       pw_stdout (Publisher.close self (set_heap h2 w')).2 =
         pw_stdout (Publisher.close self w').2).
Proof.
  intros Hd Hser Hafter.
  destruct (deepcopy_rec_spec _ _ _ _ Hd) as (copy & h' & Hcopy & Hsub & Hind).
  pose proof (Hind _ (Hafter h')) as Hd'.
  destruct (publish_copy_run self name copy (set_heap (after h') w) d wire Hd' Hser)
    as (r & w' & timeout & Hrun & Hh & Hc & Hroom).
  assert (Hracing : call_racing self name doc [] after w = (r, w')).
  { unfold call_racing. by rewrite (deepcopy_racing_idle _ _ _ _ _ Hcopy). }
  exists copy, h', r, w', timeout. repeat split; try done.
  - by apply Hroom.
  - by apply Hroom.
  - intros Hidle. by rewrite <- (call_racing_idle _ _ _ _ _ _ after Hcopy Hidle).
  - by rewrite heap_blind_close.
  - by rewrite heap_blind_close.
Qed.

End PublisherRaces.

(** ** Further properties of the receive loop and the lifecycle *)

Section DispatcherPaths.

Implicit Types (w : disp_world) (self : RemoteDispatcher.t).

(** A turn of the loop does one thing to the handle: it polls it once,
    for one second. *)
Lemma poll_body_consumer self r w o w' :
  RemoteDispatcher._poll_body self r w = (o, w') ->
  dw_consumer w' = log_consumer_call (ConsumerPoll 1) (dw_consumer w).
Proof.
  unfold RemoteDispatcher._poll_body, Consumer_poll. run_disp.
  destruct (is_open (dw_consumer w)); [|by intros [= _ <-]].
  destruct r as [|msg|e]; [by intros [= _ <-]| |by intros [= _ <-]].
  destruct (error msg) as [err|]; [by intros [= _ <-]|].
  destruct (RemoteDispatcher._deserializer self (value msg)) as [pair|e];
    [|by intros [= _ <-]].
  destruct (unpack2 pair) as [[key doc]|e]; [|by intros [= _ <-]].
  simpl.
  destruct (DocumentNames.getitem key) as [member|e]; [|by intros [= _ <-]].
  unfold RemoteDispatcher.process, Dispatcher.process. run_disp.
  intros Hfan. by apply fan_out_frame in Hfan as (-> & _ & _).
Qed.

(** X11: the receive loop does nothing to the consumer but poll it with
    a timeout of one second, once for each answer it has used: it never
    subscribes, never closes the handle and never touches the [closed]
    flag; while it is blocked it has used all the answers. *)
Theorem loop_only_polls self responses w o w' :
  RemoteDispatcher._poll self responses w = (o, w') ->
  exists k,
    k <= length responses /\
    (o = Pending -> k = length responses) /\
    consumer_calls (dw_consumer w') =
      consumer_calls (dw_consumer w) ++ replicate k (ConsumerPoll 1) /\
    subscription (dw_consumer w') = subscription (dw_consumer w) /\
    consumer_config (dw_consumer w') = consumer_config (dw_consumer w) /\
    is_open (dw_consumer w') = is_open (dw_consumer w) /\
    dw_closed w' = dw_closed w.
Proof.
  revert w. induction responses as [|r later IH]; intros w; simpl.
  { intros [= <- <-]. exists 0. simpl. by rewrite app_nil_r. }
  unfold bind.
  destruct (RemoteDispatcher._poll_body self r w) as [[[]|e|] w1] eqn:Hbody;
    pose proof (poll_body_frame _ _ _ _ _ Hbody) as [Hcl _];
    pose proof (poll_body_consumer _ _ _ _ _ Hbody) as Hk.
  - intros Hrest.
    destruct (IH w1 Hrest) as (k & Hle & Hpend & Hcalls & Hsub & Hcfg & Hopen & Hclosed).
    exists (S k). rewrite Hcalls, Hsub, Hcfg, Hopen, Hclosed, Hk, Hcl. simpl.
    rewrite <- app_assoc. repeat split; try done; [lia|].
    intros Ho. by rewrite (Hpend Ho).
  - intros [= <- <-]. exists 1. rewrite Hk, Hcl. simpl.
    repeat split; try done. lia.
  - by apply poll_body_not_pending in Hbody.
Qed.

(** X12: [start] has no normal exit.  Called on an instance that has not
    been stopped, it is either still in its loop, the flag unset and the
    handle open, or it has raised what the loop raised, after [stop]
    closed the handle and set the flag. *)
Theorem start_raises_or_keeps_running self responses w o w' :
  dw_closed w = false ->
  is_open (dw_consumer w) = true ->
  RemoteDispatcher.start self responses w = (o, w') ->
  (o = Pending /\ dw_closed w' = false /\ is_open (dw_consumer w') = true) \/
  (exists e w1,
     o = Raise e /\
     RemoteDispatcher._poll self responses w = (Raise e, w1) /\
     w' = stopped w1).
Proof.
  intros Hclosed Hopen. unfold RemoteDispatcher.start, try_except. run_disp.
  rewrite Hclosed.
  destruct (RemoteDispatcher._poll self responses w) as [[[]|e|] w1] eqn:Hpoll;
    pose proof Hpoll as Hframe; apply poll_frame in Hframe as [Ho [Hc Hop]].
  - done.
  - rewrite Hopen in Hop. rewrite (stop_open _ _ Hop). intros [= <- <-].
    right. by exists e, w1.
  - intros [= <- <-]. left. by rewrite Hc, Hop.
Qed.

(** A message without broker error whose payload does not give a
    member of [DocumentNames] and a document. *)
Lemma poll_body_undecodable self msg e w :
  is_open (dw_consumer w) = true ->
  error msg = None ->
  decoded self msg = Raises e ->
  exists out,
    RemoteDispatcher._poll_body self (Received msg) w =
      (Raise e, advanced self 1 out [] w).
Proof.
  intros Hopen Herr Hdec. destruct w as [[c s o cs] cl out ps ds].
  simpl in Hopen. subst o.
  unfold decoded, and_then in Hdec.
  unfold RemoteDispatcher._poll_body, Consumer_poll, advanced. run_disp.
  rewrite Herr.
  destruct (RemoteDispatcher._deserializer self (value msg)) as [pair|e1];
    [|injection Hdec as ->; eexists [_]; by rewrite !app_nil_r].
  destruct (unpack2 pair) as [[key doc]|e1];
    [|injection Hdec as ->; eexists [_]; by rewrite !app_nil_r].
  simpl in *.
  destruct (DocumentNames.getitem key) as [member|e1]; [done|].
  injection Hdec as ->. eexists [_; _]. by rewrite !app_nil_r, <- app_assoc.
Qed.

(** X13: a message without broker error from whose payload lines 115
    and 117 cannot get a member of [DocumentNames] and a document (the
    deserializer raises, its value does not unpack into two, or the name
    is not a member: a [KeyError]) ends the instance: [start] raises
    that exception after closing the consumer and setting the flag, and
    [process] has not been called for the message. *)
Theorem undecodable_message_ends_instance self seen msg later e w w1 :
  dw_closed w = false ->
  is_open (dw_consumer w) = true ->
  RemoteDispatcher._poll self seen w = (Pending, w1) ->
  error msg = None ->
  decoded self msg = Raises e ->
  exists out,
    RemoteDispatcher.start self (seen ++ Received msg :: later) w =
      (Raise e, stopped (advanced self 1 out [] w1)) /\
    dw_processed (stopped (advanced self 1 out [] w1)) = dw_processed w1.
Proof.
  intros Hclosed Hopen Hseen Herr Hdec.
  pose proof Hseen as Hframe. apply poll_frame in Hframe as [_ [_ Hopen1]].
  rewrite Hopen in Hopen1.
  destruct (poll_body_undecodable self msg e w1 Hopen1 Herr Hdec) as (out & Hturn).
  exists out. split.
  - unfold RemoteDispatcher.start, try_except. run_disp. rewrite Hclosed.
    rewrite (poll_app _ _ _ _ _ Hseen). simpl. unfold bind at 1. rewrite Hturn.
    by rewrite stop_open.
  - unfold stopped, advanced; simpl. by rewrite app_nil_r.
Qed.

(** X14: an interrupt of the blocking [poll] after a run of valid
    messages: [start] raises the interrupt, every document received
    before it has gone through the fan-out, in order, and the consumer
    is closed and the flag set; the answers after the interrupt are not
    asked for. *)
Theorem interrupt_after_valid_messages self msgs nds e later w :
  dw_closed w = false ->
  is_open (dw_consumer w) = true ->
  Forall2 (valid self) msgs nds ->
  exists out,
    RemoteDispatcher.start self (map Received msgs ++ Interrupted e :: later) w =
      (Raise e, stopped (advanced self (S (length msgs)) out nds w)).
Proof.
  intros Hclosed Hopen Hvalid.
  destruct (valid_messages_advance_loop self msgs nds (Interrupted e :: later) w
              Hopen Hvalid) as (out & Hloop & _).
  exists out.
  unfold RemoteDispatcher.start, try_except. run_disp. rewrite Hclosed, Hloop.
  simpl. unfold RemoteDispatcher._poll_body, Consumer_poll, bind at 1. run_disp.
  rewrite Hopen.
  unfold RemoteDispatcher.stop, Consumer_close. run_disp. rewrite ?Hopen.
  unfold stopped, advanced; simpl.
  by rewrite <- (app_assoc _ (replicate _ _) [ConsumerPoll 1]), <- replicate_S_end.
Qed.

(** X15: [stop] does not look at the [closed] flag.  Whatever the
    state of the instance, it calls [close] on the consumer once, sets
    the flag and returns.  A second [stop] therefore returns as well and
    leaves the instance stopped: nothing has changed but the history of
    the handle, where [close] now appears twice. *)
Theorem stop_ignores_closed_flag self w :
  RemoteDispatcher.stop self w = (Ok tt, stopped w) /\
  RemoteDispatcher.stop self (stopped w) = (Ok tt, stopped (stopped w)) /\
  dw_closed (stopped (stopped w)) = true /\
  is_open (dw_consumer (stopped (stopped w))) = false /\
  consumer_calls (dw_consumer (stopped (stopped w))) =
    consumer_calls (dw_consumer w) ++ [Close; Close] /\
  dw_stdout (stopped (stopped w)) = dw_stdout w /\
  dw_processed (stopped (stopped w)) = dw_processed w /\
  dw_delivered (stopped (stopped w)) = dw_delivered w.
Proof.
  assert (Hstop : forall w0, RemoteDispatcher.stop self w0 = (Ok tt, stopped w0)).
  { intros [[c s o cs] cl out ps ds].
    unfold RemoteDispatcher.stop, Consumer_close, stopped. run_disp.
    by destruct o. }
  rewrite !Hstop. repeat split; try done.
  simpl. by rewrite <- app_assoc.
Qed.

Lemma after_call_consistent self c w :
  consistent w -> consistent (after_call self w c).
Proof.
  intros Hw. destruct c as [responses|]; simpl.
  - destruct (RemoteDispatcher.start self responses w) as [r w'] eqn:Hrun.
    by apply (start_consistent _ _ _ _ _ Hw Hrun).
  - destruct (RemoteDispatcher.stop self w) as [r w'] eqn:Hrun.
    by apply (stop_consistent _ _ _ _ Hw Hrun).
Qed.

(** X16: the [closed] flag tells whether the consumer is closed, in
    every world a dispatcher reaches: it does when [__init__] is done,
    and no sequence of calls of [start] and [stop] breaks it, whatever
    the broker answers and however the calls end. *)
Theorem flag_tracks_handle addr group_id deserializer self_repr out self cs :
  consistent
    (after_calls self cs
       (RemoteDispatcher.__init__ addr group_id deserializer self_repr out).2.2).
Proof.
  unfold after_calls.
  generalize (proj2 (init_consistent addr group_id deserializer self_repr out)).
  generalize (RemoteDispatcher.__init__ addr group_id deserializer self_repr out).2.2.
  induction cs as [|c cs IH]; intros w Hw; simpl; [done|].
  by apply IH, after_call_consistent.
Qed.

Lemma after_call_stopped self c w :
  dw_closed w = true ->
  dw_closed (after_call self w c) = true /\
  dw_processed (after_call self w c) = dw_processed w /\
  dw_delivered (after_call self w c) = dw_delivered w /\
  dw_stdout (after_call self w c) = dw_stdout w /\
  polls (dw_consumer (after_call self w c)) = polls (dw_consumer w).
Proof.
  intros Hclosed. destruct c as [responses|]; simpl.
  - by rewrite start_closed.
  - unfold RemoteDispatcher.stop, Consumer_close. run_disp.
    unfold polls.
    destruct (is_open (dw_consumer w)); simpl;
      rewrite List.filter_app; simpl; by rewrite app_nil_r.
Qed.

(** X17: a stopped instance stays stopped.  Once the flag is set, no
    sequence of calls of [start] and [stop] unsets it, polls the
    consumer, prints, or hands a document to the fan-out. *)
Theorem stopped_is_terminal self cs w :
  dw_closed w = true ->
  dw_closed (after_calls self cs w) = true /\
  dw_processed (after_calls self cs w) = dw_processed w /\
  dw_delivered (after_calls self cs w) = dw_delivered w /\
  dw_stdout (after_calls self cs w) = dw_stdout w /\
  polls (dw_consumer (after_calls self cs w)) = polls (dw_consumer w).
Proof.
  unfold after_calls. revert w.
  induction cs as [|c cs IH]; intros w Hclosed; simpl; [done|].
  destruct (after_call_stopped self c w Hclosed) as (Hc & Hp & Hd & Hs & Hk).
  destruct (IH _ Hc) as (-> & -> & -> & -> & ->). by rewrite Hp, Hd, Hs, Hk.
Qed.

End DispatcherPaths.

(** ** From the publisher to the subscribers *)

Section EndToEnd.

Implicit Types (w : pub_world) (dw : disp_world).

Lemma getitem_name member :
  DocumentNames.getitem (PyStr (DocumentNames.name member)) = Returns member.
Proof. by destruct member. Qed.

(** X18: the two halves of the module meet on one topic.  Whatever a
    call of [publish] submits, it submits to the topic a new
    [RemoteDispatcher] has subscribed to, and to no other. *)
Theorem published_topic_is_subscribed
    self name doc w r w' new tp v cb addr group_id deserializer self_repr out :
  Publisher.__call__ self name doc w = (r, w') ->
  calls (pw_producer w') = calls (pw_producer w) ++ new ->
  Produce tp v cb ∈ new ->
  subscription
    (dw_consumer
       (RemoteDispatcher.__init__ addr group_id deserializer self_repr out).2.2) =
    [tp].
Proof.
  intros Hrun Hnew Hin.
  apply call_cases in Hrun as (_ & new' & Hcalls & Hcases).
  rewrite Hcalls in Hnew. apply app_inv_head in Hnew. subst new'.
  destruct Hcases as [(_ & [->| ->])|(copy & d & wire & _ & _ & _ &
                       [(_ & _ & ->)|(_ & ->)])];
    repeat (apply elem_of_cons in Hin as [Hin|Hin]);
    try (by apply elem_of_nil in Hin); try done; by injection Hin as -> _ _.
Qed.

(** X19: a document published on a queue with room, with a deserializer
    that reads what the serializer wrote, is the document the
    subscribers get.  The call of [publish] returns, the producer has
    taken charge of the wire message, and a turn of the receive loop
    that is given a message with that payload hands the name and the
    tree the caller's document denoted at the time of the call to every
    subscriber, once, in registration order. *)
Theorem published_document_reaches_subscribers
    pub disp member doc w d wire dw :
  snapshot (pw_limit w) (pw_heap w) doc = Some d ->
  Publisher._serializer pub (PyTuple [PyStr (DocumentNames.name member); d]) =
    Returns wire ->
  RemoteDispatcher._deserializer disp wire =
    Returns (PyTuple [PyStr (DocumentNames.name member); d]) ->
  ~ queue_full (pw_producer w) ->
  reports_only (pw_producer w) ->
  is_open (dw_consumer dw) = true ->
  accepted disp (member, d) ->
  exists w',
    Publisher.__call__ pub (DocumentNames.name member) doc w = (Ok tt, w') /\
    accepted_payloads (pw_producer w') = accepted_payloads (pw_producer w) ++ [wire] /\
    forall msg,
      value msg = wire -> error msg = None ->
      exists out,
        RemoteDispatcher._poll_body disp (Received msg) dw =
          (Ok tt, advanced disp 1 out [(member, d)] dw).
Proof.
  intros Hd Hser Hdes Hroom Hcb Hopen Hacc.
  destruct (call_room pub _ doc w d wire Hd Hser Hroom Hcb)
    as (w' & Hrun & _ & Hpay & _).
  exists w'. split; [exact Hrun|]. split; [exact Hpay|].
  intros msg Hval Herr. apply poll_body_valid; [exact Hopen|].
  split; [split; [exact Herr|]|exact Hacc].
  unfold decoded. rewrite Hval, Hdes.
  change (and_then (DocumentNames.getitem (PyStr (DocumentNames.name member)))
            (fun m => Returns (m, d)) = Returns (member, d)).
  by rewrite getitem_name.
Qed.

End EndToEnd.

(** ** A subscriber that raises *)

Section SubscriberRaises.

Implicit Types (w : disp_world) (self : RemoteDispatcher.t).

Lemma fan_out_raises before f after i name doc e w :
  Forall (fun g : subscriber => g name doc = Returns tt) before ->
  f name doc = Raises e ->
  Dispatcher.fan_out (before ++ f :: after) i name doc w =
    (Raise e,
     mkDispWorld (dw_consumer w) (dw_closed w) (dw_stdout w) (dw_processed w)
       (dw_delivered w ++ imap (fun j _ => (i + j, name, doc)) (before ++ [f]))).
Proof.
  intros Hbefore Hf. revert i w.
  induction Hbefore as [|g before Hg _ IH]; intros i w; simpl.
  { run_disp. rewrite Hf. simpl. by rewrite Nat.add_0_r. }
  run_disp. rewrite Hg. rewrite IH. simpl.
  rewrite <- app_assoc. simpl. rewrite Nat.add_0_r.
  do 4 f_equal. apply imap_ext. intros j x _. simpl. do 2 f_equal. lia.
Qed.

(** X20: an exception of a subscriber ends the instance.  If the loop
    got through [seen] and the next message carries a document on which
    a subscriber raises while those registered before it do not, [start]
    raises that exception after closing the consumer and setting the
    flag; [process] was called with the document, the subscribers up to
    the one that raised were called in registration order, and those
    registered after it were not. *)
Theorem subscriber_exception_ends_instance
    self seen msg nd later before f after e w w1 :
  dw_closed w = false ->
  is_open (dw_consumer w) = true ->
  RemoteDispatcher._poll self seen w = (Pending, w1) ->
  decodes self msg nd ->
  RemoteDispatcher.subscribers self = before ++ f :: after ->
  Forall (fun g : subscriber => g nd.1 nd.2 = Returns tt) before ->
  f nd.1 nd.2 = Raises e ->
  exists w2,
    RemoteDispatcher.start self (seen ++ Received msg :: later) w =
      (Raise e, stopped w2) /\
    dw_processed w2 = dw_processed w1 ++ [nd] /\
    dw_delivered w2 =
      dw_delivered w1 ++ imap (fun j _ => (j, nd.1, nd.2)) (before ++ [f]).
Proof.
  intros Hclosed Hopen Hseen (Herr & Hdec) Hsubs Hbefore Hf.
  pose proof Hseen as Hframe. apply poll_frame in Hframe as [_ [_ Hopen1]].
  rewrite Hopen in Hopen1.
  unfold decoded, and_then in Hdec.
  destruct (RemoteDispatcher._deserializer self (value msg)) as [pair|e0] eqn:Hpair;
    [|done].
  destruct (unpack2 pair) as [[key doc]|e0] eqn:Hunpack; [|done]. simpl in Hdec.
  destruct (DocumentNames.getitem key) as [member|e0] eqn:Hkey; [|done].
  injection Hdec as <-. simpl in *.
  unfold RemoteDispatcher.start, try_except. run_disp. rewrite Hclosed.
  rewrite (poll_app _ _ _ _ _ Hseen). simpl. unfold bind at 1.
  unfold RemoteDispatcher._poll_body, Consumer_poll. run_disp.
  rewrite Hopen1, Herr, Hpair. simpl. rewrite Hunpack. simpl. rewrite Hkey. simpl.
  unfold RemoteDispatcher.process, Dispatcher.process. run_disp.
  rewrite Hsubs, (fan_out_raises _ _ _ _ _ _ e) by done.
  rewrite stop_open by exact Hopen1.
  eexists. split; [reflexivity|]. by split.
Qed.

End SubscriberRaises.

(** ** The further properties on the runs of the scenario *)

Section PublisherExamples.

Import Scenario Faults.

(** The theorem of C2 on the stop document and the full queue: the one
    submission of the call, the one that raised [BufferError]. *)
Lemma every_submission_carries_wire_message_witness :
  "bluesky-event" = "bluesky-event" /\
  delivery_report_function = delivery_report_function /\
  submissions
    [Produce "bluesky-event" (VBytes wire_stop) delivery_report_function;
     ProducerPoll 10] =
    [Produce "bluesky-event" (VBytes wire_stop) delivery_report_function] /\
  exists copy d wire,
    deepcopy_rec (pw_limit after_start) (VRef 2%positive) (pw_heap after_start) =
      Some (copy, pw_heap after_stop.2) /\
    snapshot (pw_limit after_start) (pw_heap after_stop.2) copy = Some d /\
    (forall d0,
       snapshot (pw_limit after_start) (pw_heap after_start) (VRef 2%positive) =
         Some d0 -> d0 = d) /\
    Publisher._serializer publisher (PyTuple [PyStr "stop"; d]) = Returns wire /\
    VBytes wire_stop = VBytes wire.
Proof.
  apply (every_submission_carries_wire_message
           publisher "stop" (VRef 2%positive) after_start
           after_stop.1 after_stop.2
           [Produce "bluesky-event" (VBytes wire_stop) delivery_report_function;
            ProducerPoll 10]
           "bluesky-event" (VBytes wire_stop) delivery_report_function).
  - vm_compute. reflexivity.
  - vm_compute. reflexivity.
  - constructor.
Defined.

(** The theorem of C7 on the start document, with another thread that
    runs [doc["uid"] = "changed"] as soon as the copy is made. *)
Lemma publish_sends_tree_at_call_time_witness :
  exists copy h' r w' timeout,
    deepcopy_rec (pw_limit world0) (VRef 1%positive) (pw_heap world0) =
      Some (copy, h') /\
    pw_heap world0 ⊆ h' /\
    snapshot (pw_limit world0) (Race.rename h') copy = Some start_doc /\
    call_racing publisher "start" (VRef 1%positive) [] Race.rename world0 = (r, w') /\
    pw_heap w' = Race.rename h' /\
    calls (pw_producer w') =
      calls (pw_producer world0) ++
        [Produce "bluesky-event" (VBytes wire_start) delivery_report_function;
         ProducerPoll timeout] /\
    (~ queue_full (pw_producer world0) -> reports_only (pw_producer world0) ->
     r = Ok tt /\
     accepted_payloads (pw_producer w') =
       accepted_payloads (pw_producer world0) ++ [wire_start]) /\
    ((forall h, Race.rename h = h) ->
     Publisher.__call__ publisher "start" (VRef 1%positive) world0 = (r, w')) /\
    (forall h2,
       pw_producer (Publisher.close publisher (set_heap h2 w')).2 =
         pw_producer (Publisher.close publisher w').2 /\
       pw_stdout (Publisher.close publisher (set_heap h2 w')).2 =
         pw_stdout (Publisher.close publisher w').2).
Proof.
  apply (publish_sends_tree_at_call_time
           publisher "start" (VRef 1%positive) world0 start_doc wire_start
           Race.rename).
  - vm_compute. reflexivity.
  - reflexivity.
  - apply overwrite_callers. vm_compute. by eexists.
Defined.

(** C7 as the spec states it fails when the other thread writes while
    the copy is being made.  The document is
    [{"seq_num": 1, "data": {"x": 1}}] when [publish] is called; the
    other thread runs [doc["data"]["x"] = 2] after the call has begun
    and before the copy has reached ["data"]; the call returns normally
    and the payload it has handed to the producer is the one of
    [{"seq_num": 1, "data": {"x": 2}}]. *)
Lemma concurrent_write_changes_payload :
  snapshot (pw_limit Race.world) (pw_heap Race.world) (VRef 3%positive) =
    Some Race.at_call /\
  Publisher._serializer publisher (PyTuple [PyStr "event"; Race.at_call]) =
    Returns (encode (PyTuple [PyStr "event"; Race.at_call])) /\
  callers (pw_heap Race.world) Race.overwrite /\
  (call_racing publisher "event" (VRef 3%positive) [Race.overwrite] id
     Race.world).1 = Ok tt /\
  calls (pw_producer
    (call_racing publisher "event" (VRef 3%positive) [Race.overwrite] id
       Race.world).2) =
    [Produce "bluesky-event"
       (VBytes (encode (PyTuple [PyStr "event"; Race.overwritten])))
       delivery_report_function;
     ProducerPoll 0] /\
  encode (PyTuple [PyStr "event"; Race.overwritten]) <>
    encode (PyTuple [PyStr "event"; Race.at_call]).
Proof.
  split; [vm_compute; reflexivity|]. split; [reflexivity|].
  split; [apply overwrite_callers; vm_compute; by eexists|].
  split; [vm_compute; reflexivity|]. split; [vm_compute; reflexivity|].
  vm_compute. discriminate.
Qed.

(** The theorem of X1 on the start document and the empty queue. *)
Lemma publish_with_room_submits_once_witness :
  exists w',
    Publisher.__call__ publisher "start" (VRef 1%positive) world0 = (Ok tt, w') /\
    calls (pw_producer w') =
      calls (pw_producer world0) ++
        [Produce "bluesky-event" (VBytes wire_start) delivery_report_function;
         ProducerPoll 0] /\
    accepted_payloads (pw_producer w') =
      accepted_payloads (pw_producer world0) ++ [wire_start] /\
    reports_only (pw_producer w').
Proof.
  apply (publish_with_room_submits_once
           publisher "start" (VRef 1%positive) world0 start_doc wire_start).
  - vm_compute. reflexivity.
  - reflexivity.
  - vm_compute. lia.
  - vm_compute. constructor.
Defined.

(** The theorem of X2 on the same call. *)
Lemma publish_returns_only_after_submission_witness :
  exists copy d wire,
    deepcopy_rec (pw_limit world0) (VRef 1%positive) (pw_heap world0) =
      Some (copy, pw_heap after_start) /\
    snapshot (pw_limit world0) (pw_heap after_start) copy = Some d /\
    Publisher._serializer publisher (PyTuple [PyStr "start"; d]) = Returns wire /\
    ~ queue_full (pw_producer world0) /\
    calls (pw_producer after_start) =
      calls (pw_producer world0) ++
        [Produce "bluesky-event" (VBytes wire) delivery_report_function;
         ProducerPoll 0].
Proof.
  apply (publish_returns_only_after_submission
           publisher "start" (VRef 1%positive) world0 after_start).
  vm_compute. reflexivity.
Defined.

(** The theorem of X3 on a serializer that raises a [PicklingError]. *)
Lemma serializer_error_reaches_caller_witness :
  exists copy h',
    deepcopy_rec (pw_limit world0) (VRef 1%positive) (pw_heap world0) =
      Some (copy, h') /\
    Publisher.__call__ (refused (UserError "PicklingError")) "start"
      (VRef 1%positive) world0 =
      (Raise (UserError "PicklingError"), set_heap h' world0).
Proof.
  apply (serializer_error_reaches_caller
           (refused (UserError "PicklingError")) "start" (VRef 1%positive) world0
           start_doc (UserError "PicklingError")).
  - vm_compute. reflexivity.
  - reflexivity.
  - reflexivity.
Defined.

(** The theorem of X4 on a serializer that raises a [BufferError]. *)
Lemma serializer_BufferError_is_caught_witness :
  exists w',
    Publisher.__call__ (refused (BufferError "cannot export buffer")) "start"
      (VRef 1%positive) world0 =
      (Raise (AttributeError "Publisher" "delivery_report"), w') /\
    calls (pw_producer w') = calls (pw_producer world0) ++ [ProducerPoll 10] /\
    accepted_payloads (pw_producer w') = accepted_payloads (pw_producer world0).
Proof.
  apply (serializer_BufferError_is_caught
           (refused (BufferError "cannot export buffer")) "start" (VRef 1%positive)
           world0 start_doc (BufferError "cannot export buffer")).
  - vm_compute. reflexivity.
  - reflexivity.
  - reflexivity.
  - vm_compute. constructor.
Defined.

(** The theorem of X5 on the stop document and the full queue. *)
Lemma publish_never_raises_BufferError_witness :
  is_BufferError (AttributeError "Publisher" "delivery_report") = false.
Proof.
  apply (publish_never_raises_BufferError
           publisher "stop" (VRef 2%positive) after_start
           (AttributeError "Publisher" "delivery_report") after_stop.2).
  vm_compute. reflexivity.
Defined.

(** The theorem of X6 on the same call. *)
Lemma failed_publish_leaves_nothing_behind_witness :
  accepted_payloads (pw_producer after_stop.2) =
    accepted_payloads (pw_producer after_start).
Proof.
  apply (failed_publish_leaves_nothing_behind
           publisher "stop" (VRef 2%positive) after_start
           (AttributeError "Publisher" "delivery_report") after_stop.2).
  - vm_compute. repeat constructor.
  - vm_compute. reflexivity.
Defined.

(** The theorem of X7 on the queue the start document is in. *)
Lemma close_reports_accepted_payloads_in_order_witness :
  exists w1,
    Publisher.close publisher after_start = (Ok tt, w1) /\
    queue (pw_producer w1) = [] /\
    map (fun r => value r.2) (reported (pw_producer w1)) =
      accepted_payloads (pw_producer after_start).
Proof.
  apply (close_reports_accepted_payloads_in_order publisher after_start).
  vm_compute. repeat constructor.
Defined.

(** The theorem of X9 on the same queue. *)
Lemma close_prints_one_line_per_message_witness :
  exists w1 out,
    Publisher.close publisher after_start = (Ok tt, w1) /\
    pw_stdout w1 = pw_stdout after_start ++ out /\
    length out = length (queue (pw_producer after_start)) /\
    reported (pw_producer w1) =
      reported (pw_producer after_start) ++
        zip_with report (final_fates (pw_producer after_start))
          (queue (pw_producer after_start)).*1 /\
    Forall2 (fun r line => prints (delivery_report r.1 r.2) line)
      (zip_with report (final_fates (pw_producer after_start))
         (queue (pw_producer after_start)).*1) out.
Proof.
  apply (close_prints_one_line_per_message publisher after_start).
  vm_compute. repeat constructor.
Defined.

(** The theorem of X10 on the stop document and the full queue. *)
Lemma publish_leaves_callers_objects_alone_witness :
  pw_heap after_start ⊆ pw_heap after_stop.2 /\
  forall n v d,
    snapshot n (pw_heap after_start) v = Some d ->
    snapshot n (pw_heap after_stop.2) v = Some d.
Proof.
  apply (publish_leaves_callers_objects_alone
           publisher "stop" (VRef 2%positive) after_start after_stop.1).
  vm_compute. reflexivity.
Defined.

End PublisherExamples.

Section DispatcherExamples.

Import Scenario Faults.

(** The theorem of X11 on a broker error followed by the start
    document. *)
Lemma loop_only_polls_witness :
  exists k,
    k <= length [Received broker_error; Received (message wire_start)] /\
    ((RemoteDispatcher._poll dispatcher
        [Received broker_error; Received (message wire_start)] fresh_world).1 =
       Pending ->
     k = length [Received broker_error; Received (message wire_start)]) /\
    consumer_calls (dw_consumer
      (RemoteDispatcher._poll dispatcher
         [Received broker_error; Received (message wire_start)] fresh_world).2) =
      consumer_calls (dw_consumer fresh_world) ++ replicate k (ConsumerPoll 1) /\
    subscription (dw_consumer
      (RemoteDispatcher._poll dispatcher
         [Received broker_error; Received (message wire_start)] fresh_world).2) =
      subscription (dw_consumer fresh_world) /\
    consumer_config (dw_consumer
      (RemoteDispatcher._poll dispatcher
         [Received broker_error; Received (message wire_start)] fresh_world).2) =
      consumer_config (dw_consumer fresh_world) /\
    is_open (dw_consumer
      (RemoteDispatcher._poll dispatcher
         [Received broker_error; Received (message wire_start)] fresh_world).2) =
      is_open (dw_consumer fresh_world) /\
    dw_closed
      (RemoteDispatcher._poll dispatcher
         [Received broker_error; Received (message wire_start)] fresh_world).2 =
      dw_closed fresh_world.
Proof.
  apply (loop_only_polls dispatcher
           [Received broker_error; Received (message wire_start)] fresh_world).
  vm_compute. reflexivity.
Defined.

(** The theorem of X12 on a loop that has received the start
    document. *)
Lemma start_raises_or_keeps_running_witness :
  ((RemoteDispatcher.start dispatcher [Received (message wire_start)]
      fresh_world).1 = Pending /\
   dw_closed
     (RemoteDispatcher.start dispatcher [Received (message wire_start)]
        fresh_world).2 = false /\
   is_open (dw_consumer
     (RemoteDispatcher.start dispatcher [Received (message wire_start)]
        fresh_world).2) = true) \/
  (exists e w1,
     (RemoteDispatcher.start dispatcher [Received (message wire_start)]
        fresh_world).1 = Raise e /\
     RemoteDispatcher._poll dispatcher [Received (message wire_start)] fresh_world =
       (Raise e, w1) /\
     (RemoteDispatcher.start dispatcher [Received (message wire_start)]
        fresh_world).2 = stopped w1).
Proof.
  apply (start_raises_or_keeps_running dispatcher
           [Received (message wire_start)] fresh_world).
  - reflexivity.
  - reflexivity.
  - vm_compute. reflexivity.
Defined.

(** The theorem of X13 on a pair whose name is no document name,
    received after the start document: a [KeyError]. *)
Lemma undecodable_message_ends_instance_witness :
  exists out,
    RemoteDispatcher.start lenient
      ([Received (message wire_start)] ++ Received (message (encode unnamed)) :: [])
      fresh_world =
      (Raise (KeyError "bogus"),
       stopped (advanced lenient 1 out []
         (RemoteDispatcher._poll lenient [Received (message wire_start)]
            fresh_world).2)) /\
    dw_processed
      (stopped (advanced lenient 1 out []
         (RemoteDispatcher._poll lenient [Received (message wire_start)]
            fresh_world).2)) =
      dw_processed
        (RemoteDispatcher._poll lenient [Received (message wire_start)]
           fresh_world).2.
Proof.
  apply (undecodable_message_ends_instance lenient
           [Received (message wire_start)] (message (encode unnamed)) []
           (KeyError "bogus") fresh_world).
  - reflexivity.
  - reflexivity.
  - vm_compute. reflexivity.
  - reflexivity.
  - vm_compute. reflexivity.
Defined.

(** The theorem of X14 on an interrupt after the start document. *)
Lemma interrupt_after_valid_messages_witness :
  exists out,
    RemoteDispatcher.start dispatcher
      (map Received [message wire_start] ++ Interrupted KeyboardInterrupt :: [])
      fresh_world =
      (Raise KeyboardInterrupt,
       stopped (advanced dispatcher (S (length [message wire_start])) out
                  [(DocumentNames.start, start_doc)] fresh_world)).
Proof.
  apply (interrupt_after_valid_messages dispatcher
           [message wire_start] [(DocumentNames.start, start_doc)]
           KeyboardInterrupt [] fresh_world).
  - reflexivity.
  - reflexivity.
  - constructor; [|constructor].
    split; [split; [reflexivity|vm_compute; reflexivity]|repeat constructor].
Defined.

(** The theorem of X17 on a stopped dispatcher that is started, stopped
    and started again. *)
Lemma stopped_is_terminal_witness :
  dw_closed
    (after_calls dispatcher
       [CallStart [Received (message wire_start)]; CallStop; CallStart []]
       (stopped fresh_world)) = true /\
  dw_processed
    (after_calls dispatcher
       [CallStart [Received (message wire_start)]; CallStop; CallStart []]
       (stopped fresh_world)) = dw_processed (stopped fresh_world) /\
  dw_delivered
    (after_calls dispatcher
       [CallStart [Received (message wire_start)]; CallStop; CallStart []]
       (stopped fresh_world)) = dw_delivered (stopped fresh_world) /\
  dw_stdout
    (after_calls dispatcher
       [CallStart [Received (message wire_start)]; CallStop; CallStart []]
       (stopped fresh_world)) = dw_stdout (stopped fresh_world) /\
  polls (dw_consumer
    (after_calls dispatcher
       [CallStart [Received (message wire_start)]; CallStop; CallStart []]
       (stopped fresh_world))) = polls (dw_consumer (stopped fresh_world)).
Proof.
  apply (stopped_is_terminal dispatcher
           [CallStart [Received (message wire_start)]; CallStop; CallStart []]
           (stopped fresh_world)).
  reflexivity.
Defined.

(** The theorem of X18 on the start document. *)
Lemma published_topic_is_subscribed_witness :
  subscription
    (dw_consumer
       (RemoteDispatcher.__init__ "localhost:9092" "kafka-bluesky"
          (loads []) "<RemoteDispatcher object>" []).2.2) =
    ["bluesky-event"].
Proof.
  apply (published_topic_is_subscribed
           publisher "start" (VRef 1%positive) world0 (Ok tt) after_start
           [Produce "bluesky-event" (VBytes wire_start) delivery_report_function;
            ProducerPoll 0]
           "bluesky-event" (VBytes wire_start) delivery_report_function).
  - vm_compute. reflexivity.
  - vm_compute. reflexivity.
  - constructor.
Defined.

(** The theorem of X19 on the start document. *)
Lemma published_document_reaches_subscribers_witness :
  exists w',
    Publisher.__call__ publisher (DocumentNames.name DocumentNames.start)
      (VRef 1%positive) world0 = (Ok tt, w') /\
    accepted_payloads (pw_producer w') =
      accepted_payloads (pw_producer world0) ++ [wire_start] /\
    forall msg,
      value msg = wire_start -> error msg = None ->
      exists out,
        RemoteDispatcher._poll_body dispatcher (Received msg) fresh_world =
          (Ok tt, advanced dispatcher 1 out [(DocumentNames.start, start_doc)]
                    fresh_world).
Proof.
  apply (published_document_reaches_subscribers
           publisher dispatcher DocumentNames.start (VRef 1%positive) world0
           start_doc wire_start fresh_world).
  - vm_compute. reflexivity.
  - reflexivity.
  - vm_compute. reflexivity.
  - vm_compute. lia.
  - vm_compute. constructor.
  - reflexivity.
  - repeat constructor.
Defined.

(** The theorem of X20 on a subscriber that raises on stop documents,
    registered between two that do not. *)
Lemma subscriber_exception_ends_instance_witness :
  exists w2,
    RemoteDispatcher.start crowded
      ([Received (message wire_start)] ++ Received (message wire_stop) :: [])
      fresh_world =
      (Raise (UserError "no stop documents"), stopped w2) /\
    dw_processed w2 =
      dw_processed
        (RemoteDispatcher._poll crowded [Received (message wire_start)]
           fresh_world).2 ++ [(DocumentNames.stop, stop_doc)] /\
    dw_delivered w2 =
      dw_delivered
        (RemoteDispatcher._poll crowded [Received (message wire_start)]
           fresh_world).2 ++
      imap (fun j _ => (j, (DocumentNames.stop, stop_doc).1,
                        (DocumentNames.stop, stop_doc).2)) ([keep] ++ [picky]).
Proof.
  apply (subscriber_exception_ends_instance crowded
           [Received (message wire_start)] (message wire_stop)
           (DocumentNames.stop, stop_doc) [] [keep] picky [keep]
           (UserError "no stop documents") fresh_world).
  - reflexivity.
  - reflexivity.
  - vm_compute. reflexivity.
  - split; [reflexivity|vm_compute; reflexivity].
  - reflexivity.
  - repeat constructor.
  - reflexivity.
Defined.

End DispatcherExamples.
